(** * A shallow embedding of [nifi/client.go]

    The client is a thin layer over two Go libraries: [net/http], which
    carries one request to the server and brings one response back, and
    [encoding/json], which turns the entity structures into request bodies
    and response bodies back into entity structures.  Both are modelled
    here at the level the client observes them:

    - a JSON text is its tree of values ([json]); an object keeps its
      members in wire order, duplicates included;
    - the server and the network are a function from requests to
      responses held by the client ([http_Do]);
    - a Go pointer to a structure that the callee updates in place is a
      value passed in and the updated value passed out. *)

From Stdlib Require Import ZArith String Ascii List.
From Stdlib Require Import Floats.SpecFloat.
From stdpp Require Import gmap strings list fin_maps sorting pretty.

#[local] Set Warnings "-register-all".
#[local] Open Scope string_scope.
#[local] Open Scope Z_scope.
#[local] Open Scope list_scope.

(** ** Go values *)

(** [float64] is an IEEE 754 binary64 number, [int] a 64-bit integer. *)
Abbreviation float64 := spec_float (only parsing).
Abbreviation int := Z (only parsing).

Definition minInt64 : Z := - 2 ^ 63.
Definition maxInt64 : Z := 2 ^ 63 - 1.

(** A slice is [nil] or a sequence of elements; [append] on either gives a
    sequence.  Capacity beyond the length is not modelled. *)
Abbreviation slice A := (option (list A)) (only parsing).

Definition elems {A} (s : slice A) : list A := default [] s.

Definition append {A} (s : slice A) (x : A) : slice A := Some (elems s ++ [x]).

(** The zero value of a type, as in [Processor{}]. *)
Class Zero (T : Type) := zero : T.
#[global] Hint Mode Zero ! : typeclass_instances.

#[global] Instance string_zero : Zero string := "".
#[global] Instance int_zero : Zero Z := 0.
#[global] Instance float64_zero : Zero spec_float := S754_zero false.
#[global] Instance bool_zero : Zero bool := false.
#[global] Instance slice_zero {A} : Zero (option (list A)) := None.

(** What an [interface{}] holds once [encoding/json] has filled it, which
    is also what a caller puts into a property mapping: [nil], a boolean,
    a number, a string, a slice of such values or a mapping to them. *)
Inductive value :=
| VNil
| VBool (b : bool)
| VFloat64 (f : float64)
| VString (s : string)
| VSlice (l : list value)
| VMap (m : gmap string value).

(** [v == nil] *)
Definition isNil (v : value) : bool :=
  match v with VNil => true | _ => false end.

(** ** Errors *)

Inductive error :=
| RequestError (msg : string)        (* http.NewRequest refused the method or the URL *)
| TransportError (msg : string)      (* Client.Do could not complete the exchange *)
| StatusError (code : Z)             (* fmt.Errorf("The call has failed with the code of %d", code) *)
| UnsupportedValueError (what : string)  (* the encoder met NaN or an infinity *)
| SyntaxError (msg : string)         (* the body is no JSON value, or reading it failed *)
| UnmarshalTypeError (found : string) (target : string).

(** The message of an [error]; only the one the client builds itself is
    spelled out. *)
Definition Error (e : error) : string :=
  match e with
  | RequestError msg | TransportError msg | SyntaxError msg => msg
  | StatusError code => "The call has failed with the code of " +:+ pretty code
  | UnsupportedValueError what => "json: unsupported value: " +:+ what
  | UnmarshalTypeError found target =>
      "json: cannot unmarshal " +:+ found +:+ " into Go value of type " +:+ target
  end.

(** A Go call returning [(T, error)] with exactly one of them set. *)
Inductive result (A : Type) :=
| Ok (a : A)
| Err (e : error).
Arguments Ok {A} a.
Arguments Err {A} e.

#[global] Instance result_ret : MRet result := λ A, Ok.
#[global] Instance result_bind : MBind result := λ A B k r,
  match r with
  | Ok a => k a
  | Err e => Err e
  end.

(** ** JSON values *)

(** A number literal as [strconv] reads it: [int_view] is its value when
    the literal is an optional sign followed by digits only, [float_view]
    is the binary64 nearest to it, an infinity when it is out of range. *)
Record number := Number {
  int_view : option Z;
  float_view : float64;
}.

(** A string of a JSON value is the string a decoder makes of the
    literal, escapes resolved. *)
Inductive json :=
| JNull
| JBool (b : bool)
| JNumber (n : number)
| JString (s : string)
| JArray (l : list json)
| JObject (members : list (string * json)).

(** The name the decoder uses for a JSON value in an [UnmarshalTypeError]. *)
Definition kind (j : json) : string :=
  match j with
  | JNull => "null"
  | JBool _ => "bool"
  | JNumber _ => "number"
  | JString _ => "string"
  | JArray _ => "array"
  | JObject _ => "object"
  end.

(** Round to nearest, ties to even. *)
Definition float64_of_Z (z : Z) : float64 := binary_normalize 53 1024 z 0 false.

Definition isFinite (f : float64) : bool :=
  match f with
  | S754_zero _ | S754_finite _ _ _ => true
  | S754_infinity _ | S754_nan => false
  end.

(** The integer a finite [float64] denotes, when it denotes one. *)
Definition integral (f : float64) : option Z :=
  match f with
  | S754_zero _ => Some 0
  | S754_finite s m e =>
      let sign := if s then -1 else 1 in
      if 0 <=? e then Some (sign * Z.pos m * 2 ^ e)
      else if Z.pos m mod 2 ^ (- e) =? 0 then Some (sign * (Z.pos m / 2 ^ (- e)))
      else None
  | _ => None
  end.

(** [strconv] writes the shortest decimal that reads back as the same
    [float64], the closest one to it when there are several.  For a whole
    number of 2^53 or more these digits are a multiple of a power of ten
    inside the rounding interval of the number: between the midpoints to
    its two neighbours, the midpoints themselves included when the
    mantissa is even. *)
Definition accepted (even : bool) (lo2 hi2 c : Z) : bool :=
  if even then (lo2 <=? 2 * c) && (2 * c <=? hi2)
  else (lo2 <? 2 * c) && (2 * c <? hi2).

Definition closest (z : Z) (a b : option Z) : option Z :=
  match a, b with
  | Some x, Some y => if Z.abs (z - x) <=? Z.abs (y - z) then Some x else Some y
  | Some x, None => Some x
  | None, o => o
  end.

(** The multiple of the largest power of ten, from [10^k] down, that lies
    in the interval whose doubled bounds are [lo2] and [hi2]. *)
Fixpoint shortestFrom (k : nat) (even : bool) (lo2 hi2 z : Z) : Z :=
  let p := 10 ^ Z.of_nat k in
  let down := z / p * p in
  let up := down + p in
  let pick (c : Z) := if accepted even lo2 hi2 c then Some c else None in
  match closest z (pick down) (pick up) with
  | Some c => c
  | None =>
      match k with
      | O => z
      | S k' => shortestFrom k' even lo2 hi2 z
      end
  end.

(** The digits written for the whole number [m * 2^e], [2^52 <= m < 2^53]:
    the neighbour above is [2^e] away, the one below as well unless [m] is
    [2^52], where it is half as far. *)
Definition shortestWhole (m : positive) (e : Z) : Z :=
  let z := Z.pos m * 2 ^ e in
  let ulp := 2 ^ e in
  let below := if Z.pos m =? 2 ^ 52 then ulp / 2 else ulp in
  shortestFrom 21 (Z.even (Z.pos m)) (2 * z - below) (2 * z + ulp) z.

(** The integer that the digits written for a whole [float64] denote: the
    number itself below 2^53, where every whole number has its own
    [float64]. *)
Definition writtenInteger (f : float64) (z : Z) : Z :=
  match f with
  | S754_finite s m e =>
      if Z.abs z <? 2 ^ 53 then z
      else (if s then -1 else 1) * shortestWhole m e
  | _ => z
  end.

(** The encoder writes a [float64] with [strconv.AppendFloat(b, f, 'f', -1, 64)]
    unless its magnitude is below 1e-6 or at least 1e21, where it uses the
    exponent form; a whole number below 1e21 is therefore written as an
    integer literal. *)
Definition number_of_float64 (f : float64) : number :=
  match integral f with
  | Some z =>
      if Z.abs z <? 10 ^ 21 then Number (Some (writtenInteger f z)) f
      else Number None f
  | None => Number None f
  end.

Definition number_of_int (z : Z) : number := Number (Some z) (float64_of_Z z).

Definition JInt (z : Z) : json := JNumber (number_of_int z).

(** ** [encoding/json] on the types of the client *)

(** [json.NewEncoder(w).Encode(v)]: the value written, or the error that
    stopped the encoder before anything was written. *)
Class Marshal (T : Type) := marshal : T → result json.
#[global] Hint Mode Marshal ! : typeclass_instances.

(** [json.NewDecoder(r).Decode(&t)] once the next value of the stream has
    been scanned: the target as the decoder leaves it, and the first
    mismatch it recorded.  The decoder keeps going after a mismatch, so a
    target can be partly filled and an error returned. *)
Class Unmarshal (T : Type) := unmarshal : json → T → T * option error.
#[global] Hint Mode Unmarshal ! : typeclass_instances.

(** [d.saveError]: the first error is the one reported. *)
Definition saveError (saved new : option error) : option error :=
  match saved with
  | Some e => Some e
  | None => new
  end.

(** *** Strings *)

Definition between (lo hi : N) (c : ascii) : bool :=
  ((lo <=? N_of_ascii c) && (N_of_ascii c <=? hi))%N.

Definition continuation (c : ascii) : bool := between 128 191 c.

(** The second byte that may follow the first byte [c] of a sequence of
    three or four bytes: no overlong form, no surrogate, nothing above
    U+10FFFF. *)
Definition second (c c1 : ascii) : bool :=
  match N_of_ascii c with
  | 224%N => between 160 191 c1
  | 237%N => between 128 159 c1
  | 240%N => between 144 191 c1
  | 244%N => between 128 143 c1
  | _ => between 128 191 c1
  end.

(** U+FFFD, bytes EF BF BD, in front of [rest]. *)
Definition replacement (rest : string) : string :=
  String "239" (String "191" (String "189" rest)).

(** What the encoder writes for the bytes of a Go string, read back: it
    walks the string with [utf8.DecodeRuneInString], copies each well-formed
    sequence and writes U+FFFD for each byte that starts none. *)
Fixpoint toValidUTF8 (s : string) : string :=
  match s with
  | EmptyString => EmptyString
  | String c rest =>
      if between 0 127 c then String c (toValidUTF8 rest)
      else
        match rest with
        | String c1 r1 =>
            if between 194 223 c && continuation c1 then
              String c (String c1 (toValidUTF8 r1))
            else
              match r1 with
              | String c2 r2 =>
                  if between 224 239 c && second c c1 && continuation c2 then
                    String c (String c1 (String c2 (toValidUTF8 r2)))
                  else
                    match r2 with
                    | String c3 r3 =>
                        if between 240 244 c && second c c1 && continuation c2
                           && continuation c3
                        then String c (String c1 (String c2
                                 (String c3 (toValidUTF8 r3))))
                        else replacement (toValidUTF8 rest)
                    | EmptyString => replacement (toValidUTF8 rest)
                    end
              | EmptyString => replacement (toValidUTF8 rest)
              end
        | EmptyString => replacement (toValidUTF8 rest)
        end
  end.

#[global] Arguments toValidUTF8 : simpl never.

(** The string is well-formed UTF-8: the encoder writes it as it is. *)
Definition validUTF8 (s : string) : Prop := toValidUTF8 s = s.

(** *** Scalars *)

#[global] Instance string_marshal : Marshal string := λ s,
  Ok (JString (toValidUTF8 s)).
#[global] Instance int_marshal : Marshal Z := λ z, Ok (JInt z).
#[global] Instance bool_marshal : Marshal bool := λ b, Ok (JBool b).
#[global] Instance float64_marshal : Marshal spec_float := λ f,
  if isFinite f then Ok (JNumber (number_of_float64 f))
  else Err (UnsupportedValueError "float64").

(** [null] leaves a scalar as it is and is no error. *)
#[global] Instance string_unmarshal : Unmarshal string := λ j s,
  match j with
  | JNull => (s, None)
  | JString s' => (s', None)
  | _ => (s, Some (UnmarshalTypeError (kind j) "string"))
  end.

#[global] Instance bool_unmarshal : Unmarshal bool := λ j b,
  match j with
  | JNull => (b, None)
  | JBool b' => (b', None)
  | _ => (b, Some (UnmarshalTypeError (kind j) "bool"))
  end.

#[global] Instance int_unmarshal : Unmarshal Z := λ j z,
  match j with
  | JNull => (z, None)
  | JNumber n =>
      match int_view n with
      | Some z' =>
          if (minInt64 <=? z') && (z' <=? maxInt64) then (z', None)
          else (z, Some (UnmarshalTypeError "number" "int"))
      | None => (z, Some (UnmarshalTypeError "number" "int"))
      end
  | _ => (z, Some (UnmarshalTypeError (kind j) "int"))
  end.

#[global] Instance float64_unmarshal : Unmarshal spec_float := λ j f,
  match j with
  | JNull => (f, None)
  | JNumber n =>
      if isFinite (float_view n) then (float_view n, None)
      else (f, Some (UnmarshalTypeError "number" "float64"))
  | _ => (f, Some (UnmarshalTypeError (kind j) "float64"))
  end.

(** *** Slices *)

(** A [nil] slice is written as [null], any other as an array. *)
#[global] Instance slice_marshal {A} `{Marshal A} : Marshal (option (list A)) := λ s,
  match s with
  | None => Ok JNull
  | Some l => js ← mapM marshal l; Ok (JArray js)
  end.

(** [d.array] walks the array and the slice together: element [i] of the
    array is decoded into element [i] of the slice when the slice has one,
    into a zero element otherwise; the slice ends up as long as the array. *)
Fixpoint decodeElems {A} `{Unmarshal A} `{Zero A} (js : list json) (old : list A)
  : list A * option error :=
  match js with
  | [] => ([], None)
  | j :: js' =>
      let '(a, e) := unmarshal j (hd zero old) in
      let '(rest, e') := decodeElems js' (tl old) in
      (a :: rest, saveError e e')
  end.

#[global] Instance slice_unmarshal {A} `{Unmarshal A} `{Zero A}
  : Unmarshal (option (list A)) := λ j s,
  match j with
  | JNull => (None, None)
  | JArray js => let '(l, e) := decodeElems js (elems s) in (Some l, e)
  | _ => (s, Some (UnmarshalTypeError (kind j) "slice"))
  end.

(** *** [interface{}] and [map[string]interface{}] *)

(** The first error of a sequence of decoding steps. *)
Definition firstError (es : list (option error)) : option error :=
  foldr saveError None es.

(** Map keys are written in the byte order of the keys themselves, each
    as a string is written. *)
Definition keyLe {A} (a b : string * A) : Prop := String.leb a.1 b.1 = true.

#[global] Instance keyLe_dec {A} : RelDecision (@keyLe A) :=
  λ a b, decide (String.leb a.1 b.1 = true).

Definition sortMembers {A} (ms : list (string * A)) : list (string * A) :=
  merge_sort keyLe ms.

Fixpoint marshalValue (v : value) : result json :=
  match v with
  | VNil => Ok JNull
  | VBool b => Ok (JBool b)
  | VFloat64 f => marshal f
  | VString s => marshal s
  | VSlice l => js ← mapM marshalValue l; Ok (JArray js)
  | VMap m =>
      ms ← mapM (λ kv : string * result json, j ← kv.2; Ok (toValidUTF8 kv.1, j))
                (sortMembers (map_to_list (marshalValue <$> m)));
      Ok (JObject ms)
  end.

#[global] Instance value_marshal : Marshal value := marshalValue.

(** [d.valueInterface]: a number becomes a [float64], and [nil] with a
    recorded error when it has no [float64]; an object becomes a mapping in
    which a later member replaces an earlier one of the same name. *)
Fixpoint valueInterface (j : json) : value * option error :=
  match j with
  | JNull => (VNil, None)
  | JBool b => (VBool b, None)
  | JNumber n =>
      if isFinite (float_view n) then (VFloat64 (float_view n), None)
      else (VNil, Some (UnmarshalTypeError "number" "float64"))
  | JString s => (VString s, None)
  | JArray l =>
      let r := map valueInterface l in
      (VSlice (r.*1), firstError (r.*2))
  | JObject ms =>
      let r := map (λ kv : string * json, (kv.1, valueInterface kv.2)) ms in
      (VMap (fold_left (λ m kv, <[kv.1 := kv.2.1]> m) r ∅),
       firstError ((λ kv, kv.2.2) <$> r))
  end.

#[global] Instance value_unmarshal : Unmarshal value := λ j _, valueInterface j.

(** A [nil] map is written as [null]. *)
#[global] Instance map_marshal : Marshal (option (gmap string value)) := λ m,
  match m with
  | None => Ok JNull
  | Some m => marshalValue (VMap m)
  end.

(** [d.object] on a map: [null] makes it [nil]; an object is stored member by
    member into the map that is there, a fresh one when it is [nil]. *)
#[global] Instance map_unmarshal : Unmarshal (option (gmap string value)) := λ j m,
  match j with
  | JNull => (None, None)
  | JObject ms =>
      let r := map (λ kv : string * json, (kv.1, valueInterface kv.2)) ms in
      (Some (fold_left (λ m kv, <[kv.1 := kv.2.1]> m) r (default ∅ m)),
       firstError ((λ kv, kv.2.2) <$> r))
  | _ => (m, Some (UnmarshalTypeError (kind j) "map[string]interface {}"))
  end.

(** *** Structures *)

(** The decoder matches an object member to a field by its exact name and,
    failing that, by its name up to case.  Folding maps [a]..[z] to
    [A]..[Z] and the two other characters that fold to a letter, U+017F
    (bytes C5 BF) to [S] and U+212A (bytes E2 84 AA) to [K]. *)
Definition upper (c : ascii) : ascii :=
  let n := N_of_ascii c in
  if ((97 <=? n) && (n <=? 122))%N then ascii_of_N (n - 32) else c.

Fixpoint foldName (s : string) : string :=
  match s with
  | EmptyString => EmptyString
  | String c rest =>
      match s with
      | String "197"%char (String "191"%char r) => String "S"%char (foldName r)
      | String "226"%char (String "132"%char (String "170"%char r)) =>
          String "K"%char (foldName r)
      | _ => String (upper c) (foldName rest)
      end
  end.

(** Decoding a member into one field of a structure. *)
Definition setter (T : Type) : Type := json → T → T * option error.

Definition into {T F} `{Unmarshal F} (get : T → F) (set : F → T → T) : setter T :=
  λ j t, let '(x, e) := unmarshal j (get t) in (set x t, e).

Definition lookupField {T} (fs : list (string * setter T)) (key : string)
  : option (setter T) :=
  match find (λ f, String.eqb f.1 key) fs with
  | Some f => Some f.2
  | None => snd <$> find (λ f, String.eqb (foldName f.1) (foldName key)) fs
  end.

(** [d.object] on a structure: [null] changes nothing, the members of an
    object are decoded in order, each into the field it names, and a member
    that names no field is skipped. *)
Definition decodeStruct {T} (name : string) (fs : list (string * setter T))
  : Unmarshal T := λ j t,
  match j with
  | JNull => (t, None)
  | JObject ms =>
      fold_left
        (λ (acc : T * option error) (kv : string * json),
           match lookupField fs kv.1 with
           | Some set => let '(t', e) := set kv.2 acc.1 in (t', saveError acc.2 e)
           | None => acc
           end)
        ms (t, None)
  | _ => (t, Some (UnmarshalTypeError (kind j) name))
  end.

(** Encoding a structure: its fields in declaration order, stopping at the
    first value that cannot be encoded. *)
Definition member {T} `{Marshal T} (name : string) (x : T)
    (rest : result (list (string * json))) : result (list (string * json)) :=
  j ← marshal x; ms ← rest; Ok ((name, j) :: ms).

(** A string field tagged [omitempty] is left out when it is empty. *)
Definition omitempty (name : string) (x : string)
    (rest : result (list (string * json))) : result (list (string * json)) :=
  if String.eqb x "" then rest else member name x rest.

Definition encodeStruct (ms : result (list (string * json))) : result json :=
  ms ← ms; Ok (JObject ms).

(** ** Common section *)

Record Revision := {
  Version : int;                        (* `json:"version"` *)
}.

Record Position := {
  X : float64;                          (* `json:"x"` *)
  Y : float64;                          (* `json:"y"` *)
}.

#[global] Instance Revision_zero : Zero Revision := {| Version := 0 |}.
#[global] Instance Position_zero : Zero Position := {| X := zero; Y := zero |}.

#[global] Instance Revision_marshal : Marshal Revision := λ r,
  encodeStruct (member "version" (Version r) (Ok [])).

#[global] Instance Revision_unmarshal : Unmarshal Revision :=
  decodeStruct "Revision"
    [("version", into Version (λ v _, {| Version := v |}))].

#[global] Instance Position_marshal : Marshal Position := λ p,
  encodeStruct (member "x" (X p) (member "y" (Y p) (Ok []))).

#[global] Instance Position_unmarshal : Unmarshal Position :=
  decodeStruct "Position"
    [("x", into X (λ v p, {| X := v; Y := Y p |}));
     ("y", into Y (λ v p, {| X := X p; Y := v |}))].

(** ** Process Group section *)

Record ProcessGroupComponent := {
  pgc_Id : string;                      (* `json:"id,omitempty"` *)
  pgc_ParentGroupId : string;           (* `json:"parentGroupId"` *)
  pgc_Name : string;                    (* `json:"name"` *)
  pgc_Position : Position;              (* `json:"position"` *)
}.

Record ProcessGroup := {
  pg_Revision : Revision;               (* `json:"revision"` *)
  pg_Component : ProcessGroupComponent; (* `json:"component"` *)
}.

#[global] Instance ProcessGroupComponent_zero : Zero ProcessGroupComponent :=
  {| pgc_Id := zero; pgc_ParentGroupId := zero; pgc_Name := zero; pgc_Position := zero |}.
#[global] Instance ProcessGroup_zero : Zero ProcessGroup :=
  {| pg_Revision := zero; pg_Component := zero |}.

#[global] Instance ProcessGroupComponent_marshal : Marshal ProcessGroupComponent := λ c,
  encodeStruct
    (omitempty "id" (pgc_Id c)
    (member "parentGroupId" (pgc_ParentGroupId c)
    (member "name" (pgc_Name c)
    (member "position" (pgc_Position c) (Ok []))))).

#[global] Instance ProcessGroupComponent_unmarshal : Unmarshal ProcessGroupComponent :=
  decodeStruct "ProcessGroupComponent"
    [("id", into pgc_Id (λ v c,
        {| pgc_Id := v; pgc_ParentGroupId := pgc_ParentGroupId c;
           pgc_Name := pgc_Name c; pgc_Position := pgc_Position c |}));
     ("parentGroupId", into pgc_ParentGroupId (λ v c,
        {| pgc_Id := pgc_Id c; pgc_ParentGroupId := v;
           pgc_Name := pgc_Name c; pgc_Position := pgc_Position c |}));
     ("name", into pgc_Name (λ v c,
        {| pgc_Id := pgc_Id c; pgc_ParentGroupId := pgc_ParentGroupId c;
           pgc_Name := v; pgc_Position := pgc_Position c |}));
     ("position", into pgc_Position (λ v c,
        {| pgc_Id := pgc_Id c; pgc_ParentGroupId := pgc_ParentGroupId c;
           pgc_Name := pgc_Name c; pgc_Position := v |}))].

#[global] Instance ProcessGroup_marshal : Marshal ProcessGroup := λ g,
  encodeStruct
    (member "revision" (pg_Revision g)
    (member "component" (pg_Component g) (Ok []))).

#[global] Instance ProcessGroup_unmarshal : Unmarshal ProcessGroup :=
  decodeStruct "ProcessGroup"
    [("revision", into pg_Revision (λ v g,
        {| pg_Revision := v; pg_Component := pg_Component g |}));
     ("component", into pg_Component (λ v g,
        {| pg_Revision := pg_Revision g; pg_Component := v |}))].

(** ** Processor section: the structures *)

Record ProcessorRelationship := {
  rel_Name : string;                    (* `json:"name"` *)
  rel_AutoTerminate : bool;             (* `json:"autoTerminate"` *)
}.

Record ProcessorConfig := {
  cfg_SchedulingStrategy : string;               (* `json:"schedulingStrategy"` *)
  cfg_SchedulingPeriod : string;                 (* `json:"schedulingPeriod"` *)
  cfg_ConcurrentlySchedulableTaskCount : int;    (* `json:"concurrentlySchedulableTaskCount"` *)
  cfg_Properties : option (gmap string value);   (* `json:"properties"` *)
  cfg_AutoTerminatedRelationships : slice string; (* `json:"autoTerminatedRelationships"` *)
}.

Record ProcessorComponent := {
  pc_Id : string;                       (* `json:"id,omitempty"` *)
  pc_ParentGroupId : string;            (* `json:"parentGroupId"` *)
  pc_Name : string;                     (* `json:"name"` *)
  pc_Type : string;                     (* `json:"type"` *)
  pc_Position : Position;               (* `json:"position"` *)
  pc_State : string;                    (* `json:"state,omitempty"` *)
  pc_Config : ProcessorConfig;          (* `json:"config"` *)
  pc_Relationships : slice ProcessorRelationship; (* `json:"relationships"` *)
}.

Record Processor := {
  p_Revision : Revision;                (* `json:"revision"` *)
  p_Component : ProcessorComponent;     (* `json:"component"` *)
}.

#[global] Instance ProcessorRelationship_zero : Zero ProcessorRelationship :=
  {| rel_Name := zero; rel_AutoTerminate := zero |}.
#[global] Instance ProcessorConfig_zero : Zero ProcessorConfig :=
  {| cfg_SchedulingStrategy := zero; cfg_SchedulingPeriod := zero;
     cfg_ConcurrentlySchedulableTaskCount := zero;
     cfg_Properties := None; cfg_AutoTerminatedRelationships := zero |}.
#[global] Instance ProcessorComponent_zero : Zero ProcessorComponent :=
  {| pc_Id := zero; pc_ParentGroupId := zero; pc_Name := zero; pc_Type := zero;
     pc_Position := zero; pc_State := zero; pc_Config := zero;
     pc_Relationships := zero |}.
#[global] Instance Processor_zero : Zero Processor :=
  {| p_Revision := zero; p_Component := zero |}.

(** Field updates, written [x.f = v] in the source. *)
Definition set_Properties (v : option (gmap string value)) (c : ProcessorConfig)
  : ProcessorConfig :=
  {| cfg_SchedulingStrategy := cfg_SchedulingStrategy c;
     cfg_SchedulingPeriod := cfg_SchedulingPeriod c;
     cfg_ConcurrentlySchedulableTaskCount := cfg_ConcurrentlySchedulableTaskCount c;
     cfg_Properties := v;
     cfg_AutoTerminatedRelationships := cfg_AutoTerminatedRelationships c |}.

Definition set_AutoTerminatedRelationships (v : slice string) (c : ProcessorConfig)
  : ProcessorConfig :=
  {| cfg_SchedulingStrategy := cfg_SchedulingStrategy c;
     cfg_SchedulingPeriod := cfg_SchedulingPeriod c;
     cfg_ConcurrentlySchedulableTaskCount := cfg_ConcurrentlySchedulableTaskCount c;
     cfg_Properties := cfg_Properties c;
     cfg_AutoTerminatedRelationships := v |}.

Definition set_State (v : string) (c : ProcessorComponent) : ProcessorComponent :=
  {| pc_Id := pc_Id c; pc_ParentGroupId := pc_ParentGroupId c; pc_Name := pc_Name c;
     pc_Type := pc_Type c; pc_Position := pc_Position c; pc_State := v;
     pc_Config := pc_Config c; pc_Relationships := pc_Relationships c |}.

Definition set_Config (v : ProcessorConfig) (c : ProcessorComponent)
  : ProcessorComponent :=
  {| pc_Id := pc_Id c; pc_ParentGroupId := pc_ParentGroupId c; pc_Name := pc_Name c;
     pc_Type := pc_Type c; pc_Position := pc_Position c; pc_State := pc_State c;
     pc_Config := v; pc_Relationships := pc_Relationships c |}.

Definition set_Component (v : ProcessorComponent) (p : Processor) : Processor :=
  {| p_Revision := p_Revision p; p_Component := v |}.

#[global] Instance ProcessorRelationship_marshal : Marshal ProcessorRelationship := λ r,
  encodeStruct
    (member "name" (rel_Name r)
    (member "autoTerminate" (rel_AutoTerminate r) (Ok []))).

#[global] Instance ProcessorRelationship_unmarshal : Unmarshal ProcessorRelationship :=
  decodeStruct "ProcessorRelationship"
    [("name", into rel_Name (λ v r,
        {| rel_Name := v; rel_AutoTerminate := rel_AutoTerminate r |}));
     ("autoTerminate", into rel_AutoTerminate (λ v r,
        {| rel_Name := rel_Name r; rel_AutoTerminate := v |}))].

#[global] Instance ProcessorConfig_marshal : Marshal ProcessorConfig := λ c,
  encodeStruct
    (member "schedulingStrategy" (cfg_SchedulingStrategy c)
    (member "schedulingPeriod" (cfg_SchedulingPeriod c)
    (member "concurrentlySchedulableTaskCount" (cfg_ConcurrentlySchedulableTaskCount c)
    (member "properties" (cfg_Properties c)
    (member "autoTerminatedRelationships" (cfg_AutoTerminatedRelationships c)
       (Ok [])))))).

#[global] Instance ProcessorConfig_unmarshal : Unmarshal ProcessorConfig :=
  decodeStruct "ProcessorConfig"
    [("schedulingStrategy", into cfg_SchedulingStrategy (λ v c,
        {| cfg_SchedulingStrategy := v;
           cfg_SchedulingPeriod := cfg_SchedulingPeriod c;
           cfg_ConcurrentlySchedulableTaskCount := cfg_ConcurrentlySchedulableTaskCount c;
           cfg_Properties := cfg_Properties c;
           cfg_AutoTerminatedRelationships := cfg_AutoTerminatedRelationships c |}));
     ("schedulingPeriod", into cfg_SchedulingPeriod (λ v c,
        {| cfg_SchedulingStrategy := cfg_SchedulingStrategy c;
           cfg_SchedulingPeriod := v;
           cfg_ConcurrentlySchedulableTaskCount := cfg_ConcurrentlySchedulableTaskCount c;
           cfg_Properties := cfg_Properties c;
           cfg_AutoTerminatedRelationships := cfg_AutoTerminatedRelationships c |}));
     ("concurrentlySchedulableTaskCount",
      into cfg_ConcurrentlySchedulableTaskCount (λ v c,
        {| cfg_SchedulingStrategy := cfg_SchedulingStrategy c;
           cfg_SchedulingPeriod := cfg_SchedulingPeriod c;
           cfg_ConcurrentlySchedulableTaskCount := v;
           cfg_Properties := cfg_Properties c;
           cfg_AutoTerminatedRelationships := cfg_AutoTerminatedRelationships c |}));
     ("properties", into cfg_Properties set_Properties);
     ("autoTerminatedRelationships",
      into cfg_AutoTerminatedRelationships set_AutoTerminatedRelationships)].

#[global] Instance ProcessorComponent_marshal : Marshal ProcessorComponent := λ c,
  encodeStruct
    (omitempty "id" (pc_Id c)
    (member "parentGroupId" (pc_ParentGroupId c)
    (member "name" (pc_Name c)
    (member "type" (pc_Type c)
    (member "position" (pc_Position c)
    (omitempty "state" (pc_State c)
    (member "config" (pc_Config c)
    (member "relationships" (pc_Relationships c) (Ok []))))))))).

#[global] Instance ProcessorComponent_unmarshal : Unmarshal ProcessorComponent :=
  decodeStruct "ProcessorComponent"
    [("id", into pc_Id (λ v c,
        {| pc_Id := v; pc_ParentGroupId := pc_ParentGroupId c; pc_Name := pc_Name c;
           pc_Type := pc_Type c; pc_Position := pc_Position c; pc_State := pc_State c;
           pc_Config := pc_Config c; pc_Relationships := pc_Relationships c |}));
     ("parentGroupId", into pc_ParentGroupId (λ v c,
        {| pc_Id := pc_Id c; pc_ParentGroupId := v; pc_Name := pc_Name c;
           pc_Type := pc_Type c; pc_Position := pc_Position c; pc_State := pc_State c;
           pc_Config := pc_Config c; pc_Relationships := pc_Relationships c |}));
     ("name", into pc_Name (λ v c,
        {| pc_Id := pc_Id c; pc_ParentGroupId := pc_ParentGroupId c; pc_Name := v;
           pc_Type := pc_Type c; pc_Position := pc_Position c; pc_State := pc_State c;
           pc_Config := pc_Config c; pc_Relationships := pc_Relationships c |}));
     ("type", into pc_Type (λ v c,
        {| pc_Id := pc_Id c; pc_ParentGroupId := pc_ParentGroupId c; pc_Name := pc_Name c;
           pc_Type := v; pc_Position := pc_Position c; pc_State := pc_State c;
           pc_Config := pc_Config c; pc_Relationships := pc_Relationships c |}));
     ("position", into pc_Position (λ v c,
        {| pc_Id := pc_Id c; pc_ParentGroupId := pc_ParentGroupId c; pc_Name := pc_Name c;
           pc_Type := pc_Type c; pc_Position := v; pc_State := pc_State c;
           pc_Config := pc_Config c; pc_Relationships := pc_Relationships c |}));
     ("state", into pc_State set_State);
     ("config", into pc_Config set_Config);
     ("relationships", into pc_Relationships (λ v c,
        {| pc_Id := pc_Id c; pc_ParentGroupId := pc_ParentGroupId c; pc_Name := pc_Name c;
           pc_Type := pc_Type c; pc_Position := pc_Position c; pc_State := pc_State c;
           pc_Config := pc_Config c; pc_Relationships := v |}))].

#[global] Instance Processor_marshal : Marshal Processor := λ p,
  encodeStruct
    (member "revision" (p_Revision p)
    (member "component" (p_Component p) (Ok []))).

#[global] Instance Processor_unmarshal : Unmarshal Processor :=
  decodeStruct "Processor"
    [("revision", into p_Revision (λ v p,
        {| p_Revision := v; p_Component := p_Component p |}));
     ("component", into p_Component set_Component)].

(** ** Connection section: the structures *)

Record ConnectionHand := {
  hand_Type : string;                   (* `json:"type"` *)
  hand_Id : string;                     (* `json:"id"` *)
}.

Record ConnectionComponent := {
  cc_Id : string;                       (* `json:"id,omitempty"` *)
  cc_ParentGroupId : string;            (* `json:"parentGroupId"` *)
  cc_Source : ConnectionHand;           (* `json:"source"` *)
  cc_Destination : ConnectionHand;      (* `json:"destination"` *)
  cc_SelectedRelationships : slice string; (* `json:"selectedRelationships"` *)
  cc_Bends : slice Position;            (* `json:"bends"` *)
}.

Record Connection := {
  conn_Revision : Revision;             (* `json:"revision"` *)
  conn_Component : ConnectionComponent; (* `json:"component"` *)
}.

#[global] Instance ConnectionHand_zero : Zero ConnectionHand :=
  {| hand_Type := zero; hand_Id := zero |}.
#[global] Instance ConnectionComponent_zero : Zero ConnectionComponent :=
  {| cc_Id := zero; cc_ParentGroupId := zero; cc_Source := zero;
     cc_Destination := zero; cc_SelectedRelationships := zero; cc_Bends := zero |}.
#[global] Instance Connection_zero : Zero Connection :=
  {| conn_Revision := zero; conn_Component := zero |}.

#[global] Instance ConnectionHand_marshal : Marshal ConnectionHand := λ h,
  encodeStruct (member "type" (hand_Type h) (member "id" (hand_Id h) (Ok []))).

#[global] Instance ConnectionHand_unmarshal : Unmarshal ConnectionHand :=
  decodeStruct "ConnectionHand"
    [("type", into hand_Type (λ v h, {| hand_Type := v; hand_Id := hand_Id h |}));
     ("id", into hand_Id (λ v h, {| hand_Type := hand_Type h; hand_Id := v |}))].

#[global] Instance ConnectionComponent_marshal : Marshal ConnectionComponent := λ c,
  encodeStruct
    (omitempty "id" (cc_Id c)
    (member "parentGroupId" (cc_ParentGroupId c)
    (member "source" (cc_Source c)
    (member "destination" (cc_Destination c)
    (member "selectedRelationships" (cc_SelectedRelationships c)
    (member "bends" (cc_Bends c) (Ok []))))))).

#[global] Instance ConnectionComponent_unmarshal : Unmarshal ConnectionComponent :=
  decodeStruct "ConnectionComponent"
    [("id", into cc_Id (λ v c,
        {| cc_Id := v; cc_ParentGroupId := cc_ParentGroupId c; cc_Source := cc_Source c;
           cc_Destination := cc_Destination c;
           cc_SelectedRelationships := cc_SelectedRelationships c;
           cc_Bends := cc_Bends c |}));
     ("parentGroupId", into cc_ParentGroupId (λ v c,
        {| cc_Id := cc_Id c; cc_ParentGroupId := v; cc_Source := cc_Source c;
           cc_Destination := cc_Destination c;
           cc_SelectedRelationships := cc_SelectedRelationships c;
           cc_Bends := cc_Bends c |}));
     ("source", into cc_Source (λ v c,
        {| cc_Id := cc_Id c; cc_ParentGroupId := cc_ParentGroupId c; cc_Source := v;
           cc_Destination := cc_Destination c;
           cc_SelectedRelationships := cc_SelectedRelationships c;
           cc_Bends := cc_Bends c |}));
     ("destination", into cc_Destination (λ v c,
        {| cc_Id := cc_Id c; cc_ParentGroupId := cc_ParentGroupId c;
           cc_Source := cc_Source c; cc_Destination := v;
           cc_SelectedRelationships := cc_SelectedRelationships c;
           cc_Bends := cc_Bends c |}));
     ("selectedRelationships", into cc_SelectedRelationships (λ v c,
        {| cc_Id := cc_Id c; cc_ParentGroupId := cc_ParentGroupId c;
           cc_Source := cc_Source c; cc_Destination := cc_Destination c;
           cc_SelectedRelationships := v; cc_Bends := cc_Bends c |}));
     ("bends", into cc_Bends (λ v c,
        {| cc_Id := cc_Id c; cc_ParentGroupId := cc_ParentGroupId c;
           cc_Source := cc_Source c; cc_Destination := cc_Destination c;
           cc_SelectedRelationships := cc_SelectedRelationships c; cc_Bends := v |}))].

#[global] Instance Connection_marshal : Marshal Connection := λ c,
  encodeStruct
    (member "revision" (conn_Revision c)
    (member "component" (conn_Component c) (Ok []))).

#[global] Instance Connection_unmarshal : Unmarshal Connection :=
  decodeStruct "Connection"
    [("revision", into conn_Revision (λ v c,
        {| conn_Revision := v; conn_Component := conn_Component c |}));
     ("component", into conn_Component (λ v c,
        {| conn_Revision := conn_Revision c; conn_Component := v |}))].

(** ** The client *)

(** Modelled from the spec: [Config] is declared outside [client.go]; the
    client reads two strings from it, "a configuration value supplying host
    and API-path". *)
Record Config := {
  Host : string;
  ApiPath : string;
}.

(** A [bytes.Buffer] the encoder has written to: the JSON values written,
    each on its own line.  The empty list is the buffer with no bytes. *)
Abbreviation Buffer := (list json) (only parsing).

(** An [http.Request]: [Body] is [None] when [http.NewRequest] was given a
    [nil] reader, [ContentType] holds the header the client adds. *)
Record Request := {
  Method : string;
  URL : string;
  Body : option Buffer;
  ContentType : option string;
}.

(** An [http.Response]: [RespBody] is what a decoder finds at the head of
    the body stream, the next JSON value or the error of reading it. *)
Record Response := {
  StatusCode : int;
  RespBody : result json;
}.

(** [net/http] as the client meets it: [http_NewRequest] tells whether a
    method and URL are refused, [http_Do] performs the exchange. *)
Record http := {
  http_NewRequest : string → string → option error;
  http_Do : Request → result Response;
}.

Record Client := {
  cConfig : Config;
  cClient : http;
}.

(** The type of a [nil] passed as [bodyIn] or [bodyOut]. *)
Inductive nothing : Type := .

#[global] Instance nothing_marshal : Marshal nothing := λ x, match x with end.
#[global] Instance nothing_unmarshal : Unmarshal nothing := λ _ x, match x with end.

(** ** Common section: the call primitive *)

(** [bodyOut] is a pointer in the source; the first component of the
    result is what it points to when the call returns. *)
Definition JsonCall {A B} `{Marshal A} `{Unmarshal B} (c : Client)
    (method url : string) (bodyIn : option A) (bodyOut : option B)
  : option B * option error * int :=
  let requestBody : option Buffer :=
    match bodyIn with
    | Some v =>
        (* the error of Encode is dropped; on error nothing was written *)
        Some (match marshal v with Ok j => [j] | Err _ => [] end)
    | None => None
    end in
  match http_NewRequest (cClient c) method url with
  | Some err => (bodyOut, Some err, 0)
  | None =>
      let request :=
        {| Method := method; URL := url; Body := requestBody;
           ContentType :=
             match bodyIn with
             | Some _ => Some "application/json; charset=utf-8"
             | None => None
             end |} in
      match http_Do (cClient c) request with
      | Err err => (bodyOut, Some err, 0)
      | Ok response =>
          if StatusCode response =? 404 then
            (bodyOut, None, StatusCode response)
          else if 300 <=? StatusCode response then
            (bodyOut, Some (StatusError (StatusCode response)), StatusCode response)
          else
            match bodyOut with
            | Some target =>
                match RespBody response with
                | Err err => (Some target, Some err, StatusCode response)
                | Ok j =>
                    let '(target', err) := unmarshal j target in
                    (Some target', err, StatusCode response)
                end
            | None => (None, None, StatusCode response)
            end
      end
  end.

(** What a pointer passed as [bodyOut] points to after the call. *)
Definition deref {B} (before : B) (after : option B) : B := default before after.

(** ** Process Group section *)

Definition CreateProcessGroup (c : Client) (processGroup : ProcessGroup)
  : ProcessGroup * option error :=
  let url := "http://" +:+ Host (cConfig c) +:+ "/" +:+ ApiPath (cConfig c)
             +:+ "/process-groups/" +:+ pgc_ParentGroupId (pg_Component processGroup)
             +:+ "/process-groups" in
  let '(out, err, _) := JsonCall c "POST" url (Some processGroup) (Some processGroup) in
  (deref processGroup out, err).

Definition GetProcessGroup (c : Client) (processGroupId : string)
  : option ProcessGroup * option error :=
  let url := "http://" +:+ Host (cConfig c) +:+ "/" +:+ ApiPath (cConfig c)
             +:+ "/process-groups/" +:+ processGroupId in
  let processGroup : ProcessGroup := zero in
  let '(out, err, code) := JsonCall (A := nothing) c "GET" url None (Some processGroup) in
  match err with
  | Some e => (None, Some e)
  | None =>
      if 404 =? code then (None, None)
      else (Some (deref processGroup out), None)
  end.

Definition UpdateProcessGroup (c : Client) (processGroup : ProcessGroup)
  : ProcessGroup * option error :=
  let url := "http://" +:+ Host (cConfig c) +:+ "/" +:+ ApiPath (cConfig c)
             +:+ "/process-groups/" +:+ pgc_Id (pg_Component processGroup) in
  let '(out, err, _) := JsonCall c "PUT" url (Some processGroup) (Some processGroup) in
  (deref processGroup out, err).

Definition DeleteProcessGroup (c : Client) (processGroupId : string) : option error :=
  let url := "http://" +:+ Host (cConfig c) +:+ "/" +:+ ApiPath (cConfig c)
             +:+ "/process-groups/" +:+ processGroupId in
  let '(_, err, _) :=
    JsonCall (A := nothing) (B := nothing) c "DELETE" url None None in
  err.

(** ** Processor section *)

(** The body of the [range] loop, run over the entries in the order the
    iteration yields them. *)
Definition cleanupLoop (entries : list (string * value)) (m : gmap string value)
  : gmap string value :=
  fold_left (λ m kv, if isNil kv.2 then delete kv.1 m else m) entries m.

Definition ProcessorCleanupNilProperties (c : Client) (processor : Processor)
  : Processor * option error :=
  (match cfg_Properties (pc_Config (p_Component processor)) with
   | Some m =>
       set_Component
         (set_Config
            (set_Properties (Some (cleanupLoop (map_to_list m) m))
               (pc_Config (p_Component processor)))
            (p_Component processor))
         processor
   | None => processor            (* ranging over a nil map does nothing *)
   end, None).

Definition CreateProcessor (c : Client) (processor : Processor)
  : Processor * option error :=
  let url := "http://" +:+ Host (cConfig c) +:+ "/" +:+ ApiPath (cConfig c)
             +:+ "/process-groups/" +:+ pc_ParentGroupId (p_Component processor)
             +:+ "/processors" in
  let '(out, err, _) := JsonCall c "POST" url (Some processor) (Some processor) in
  let '(processor, _) := ProcessorCleanupNilProperties c (deref processor out) in
  (processor, err).

Definition GetProcessor (c : Client) (processorId : string)
  : option Processor * option error :=
  let url := "http://" +:+ Host (cConfig c) +:+ "/" +:+ ApiPath (cConfig c)
             +:+ "/processors/" +:+ processorId in
  let processor : Processor := zero in
  let '(out, err, code) := JsonCall (A := nothing) c "GET" url None (Some processor) in
  match err with
  | Some e => (None, Some e)
  | None =>
      if 404 =? code then (None, None)
      else
        let '(processor, _) := ProcessorCleanupNilProperties c (deref processor out) in
        let relationships : slice string :=
          fold_left
            (λ relationships v,
               if rel_AutoTerminate v then append relationships (rel_Name v)
               else relationships)
            (elems (pc_Relationships (p_Component processor)))
            (Some []) in
        (Some (set_Component
                 (set_Config
                    (set_AutoTerminatedRelationships relationships
                       (pc_Config (p_Component processor)))
                    (p_Component processor))
                 processor),
         None)
  end.

Definition UpdateProcessor (c : Client) (processor : Processor)
  : Processor * option error :=
  let url := "http://" +:+ Host (cConfig c) +:+ "/" +:+ ApiPath (cConfig c)
             +:+ "/processors/" +:+ pc_Id (p_Component processor) in
  let '(out, err, _) := JsonCall c "PUT" url (Some processor) (Some processor) in
  let '(processor, _) := ProcessorCleanupNilProperties c (deref processor out) in
  (processor, err).

Definition DeleteProcessor (c : Client) (processorId : string) : option error :=
  let url := "http://" +:+ Host (cConfig c) +:+ "/" +:+ ApiPath (cConfig c)
             +:+ "/processors/" +:+ processorId in
  let '(_, err, _) :=
    JsonCall (A := nothing) (B := nothing) c "DELETE" url None None in
  err.

Definition SetProcessorState (c : Client) (processor : Processor) (state : string)
  : Processor * option error :=
  let stateUpdate : Processor :=
    {| p_Revision := {| Version := Version (p_Revision processor) |};
       p_Component :=
         {| pc_Id := pc_Id (p_Component processor);
            pc_ParentGroupId := zero; pc_Name := zero; pc_Type := zero;
            pc_Position := zero;
            pc_State := state;
            pc_Config := zero; pc_Relationships := zero |} |} in
  let url := "http://" +:+ Host (cConfig c) +:+ "/" +:+ ApiPath (cConfig c)
             +:+ "/processors/" +:+ pc_Id (p_Component processor) in
  let '(_, err, _) := JsonCall (B := nothing) c "PUT" url (Some stateUpdate) None in
  match err with
  | None => (set_Component (set_State state (p_Component processor)) processor, None)
  | Some e => (processor, Some e)
  end.

Definition StartProcessor (c : Client) (processor : Processor)
  : Processor * option error :=
  SetProcessorState c processor "RUNNING".


(** ** Connection section *)

Definition CreateConnection (c : Client) (connection : Connection)
  : Connection * option error :=
  let url := "http://" +:+ Host (cConfig c) +:+ "/" +:+ ApiPath (cConfig c)
             +:+ "/process-groups/" +:+ cc_ParentGroupId (conn_Component connection)
             +:+ "/connections" in
  let '(out, err, _) := JsonCall c "POST" url (Some connection) (Some connection) in
  (deref connection out, err).

Definition GetConnection (c : Client) (connectionId : string)
  : option Connection * option error :=
  let url := "http://" +:+ Host (cConfig c) +:+ "/" +:+ ApiPath (cConfig c)
             +:+ "/connections/" +:+ connectionId in
  let connection : Connection := zero in
  let '(out, err, code) := JsonCall (A := nothing) c "GET" url None (Some connection) in
  match err with
  | Some e => (None, Some e)
  | None =>
      if 404 =? code then (None, None)
      else (Some (deref connection out), None)
  end.

Definition UpdateConnection (c : Client) (connection : Connection)
  : Connection * option error :=
  let url := "http://" +:+ Host (cConfig c) +:+ "/" +:+ ApiPath (cConfig c)
             +:+ "/connections/" +:+ cc_Id (conn_Component connection) in
  let '(out, err, _) := JsonCall c "PUT" url (Some connection) (Some connection) in
  (deref connection out, err).

Definition DeleteConnection (c : Client) (connectionId : string) : option error :=
  let url := "http://" +:+ Host (cConfig c) +:+ "/" +:+ ApiPath (cConfig c)
             +:+ "/connections/" +:+ connectionId in
  let '(_, err, _) :=
    JsonCall (A := nothing) (B := nothing) c "DELETE" url None None in
  err.

(** * Properties *)

(** ** Vocabulary *)

(** *** Requests and exchanges *)

(** The URL of an endpoint: [http://<host>/<api-path><path>]. *)
Definition endpoint (c : Client) (path : string) : string :=
  "http://" +:+ Host (cConfig c) +:+ "/" +:+ ApiPath (cConfig c) +:+ path.

(** The request a call with no payload sends. *)
Definition bare (method url : string) : Request :=
  {| Method := method; URL := url; Body := None; ContentType := None |}.

(** The request a call with a payload sends, given what the encoder left in
    the buffer. *)
Definition carrying (method url : string) (buffer : list json) : Request :=
  {| Method := method; URL := url; Body := Some buffer;
     ContentType := Some "application/json; charset=utf-8" |}.

(** What [Encode] leaves in the buffer. *)
Definition encoded {A} `{Marshal A} (v : A) : list json :=
  match marshal v with
  | Ok j => [j]
  | Err _ => []
  end.

Definition requestOf {A} `{Marshal A} (method url : string) (bodyIn : option A)
  : Request :=
  match bodyIn with
  | Some v => carrying method url (encoded v)
  | None => bare method url
  end.

(** The request is accepted by [http.NewRequest] and the exchange brings
    [response] back. *)
Definition answers (c : Client) (request : Request) (response : Response) : Prop :=
  http_NewRequest (cClient c) (Method request) (URL request) = None
  ∧ http_Do (cClient c) request = Ok response.

(** The part of [JsonCall] that follows a completed exchange. *)
Definition classify {B} `{Unmarshal B} (response : Response) (bodyOut : option B)
  : option B * option error * int :=
  if StatusCode response =? 404 then (bodyOut, None, StatusCode response)
  else if 300 <=? StatusCode response then
    (bodyOut, Some (StatusError (StatusCode response)), StatusCode response)
  else
    match bodyOut, RespBody response with
    | None, _ => (None, None, StatusCode response)
    | Some target, Err err => (Some target, Some err, StatusCode response)
    | Some target, Ok j =>
        (Some (unmarshal j target).1, (unmarshal j target).2, StatusCode response)
    end.

(** One exchange as [JsonCall] runs it: the request is built, sent, and the
    response classified. *)
Definition exchange {B} `{Unmarshal B} (c : Client) (request : Request)
    (bodyOut : option B) : option B * option error * int :=
  match http_NewRequest (cClient c) (Method request) (URL request) with
  | Some err => (bodyOut, Some err, 0)
  | None =>
      match http_Do (cClient c) request with
      | Err err => (bodyOut, Some err, 0)
      | Ok response => classify response bodyOut
      end
  end.

(** *** Processors, their properties and their relationships *)

(** The structure [SetProcessorState] builds and encodes. *)
Definition stateUpdate (processor : Processor) (state : string) : Processor :=
  {| p_Revision := {| Version := Version (p_Revision processor) |};
     p_Component :=
       {| pc_Id := pc_Id (p_Component processor);
          pc_ParentGroupId := ""; pc_Name := ""; pc_Type := "";
          pc_Position := {| X := S754_zero false; Y := S754_zero false |};
          pc_State := state;
          pc_Config :=
            {| cfg_SchedulingStrategy := ""; cfg_SchedulingPeriod := "";
               cfg_ConcurrentlySchedulableTaskCount := 0;
               cfg_Properties := None; cfg_AutoTerminatedRelationships := None |};
          pc_Relationships := None |} |}.

(** [processor] with its state field set to [state]. *)
Definition withState (state : string) (processor : Processor) : Processor :=
  set_Component (set_State state (p_Component processor)) processor.

(** The two structures agree on every field but the state. *)
Definition sameButState (p q : Processor) : Prop :=
  p_Revision q = p_Revision p
  ∧ pc_Id (p_Component q) = pc_Id (p_Component p)
  ∧ pc_ParentGroupId (p_Component q) = pc_ParentGroupId (p_Component p)
  ∧ pc_Name (p_Component q) = pc_Name (p_Component p)
  ∧ pc_Type (p_Component q) = pc_Type (p_Component p)
  ∧ pc_Position (p_Component q) = pc_Position (p_Component p)
  ∧ pc_Config (p_Component q) = pc_Config (p_Component p)
  ∧ pc_Relationships (p_Component q) = pc_Relationships (p_Component p).

(** The body the scenario of the specification expects for a transition of
    processor [id] at revision [version] to [state]. *)
Definition minimalBody (id : string) (version : int) (state : string) : json :=
  JObject
    [("revision", JObject [("version", JInt version)]);
     ("component", JObject [("id", JString id); ("state", JString state)])].

(** The members the encoder writes for a field tagged [omitempty]. *)
Definition unlessEmpty (name value : string) : list (string * json) :=
  if String.eqb value "" then [] else [(name, JString (toValidUTF8 value))].

(** The property mapping of a processor; a [nil] map has no entries. *)
Definition properties (p : Processor) : gmap string value :=
  default ∅ (cfg_Properties (pc_Config (p_Component p))).

(** No key of the mapping is bound to [nil]. *)
Definition noNilProperty (p : Processor) : Prop :=
  ∀ k, properties p !! k ≠ Some VNil.

(** What the normalization leaves under one key. *)
Definition stripNil (o : option value) : option value :=
  match o with
  | Some VNil => None
  | other => other
  end.

(** Some entry of the list binds [k] to [nil]. *)
Definition bindsNil (k : string) (entries : list (string * value)) : bool :=
  existsb (λ kv, bool_decide (kv.1 = k) && isNil kv.2) entries.

(** The names of the relationships flagged auto-terminate, in order. *)
Definition autoTerminatedNames (rels : list ProcessorRelationship) : list string :=
  rel_Name <$> filter (λ r, rel_AutoTerminate r = true) rels.

(** A Go [int] holds 64 bits. *)
Definition inInt64 (z : Z) : Prop := minInt64 ≤ z ≤ maxInt64.

(** The member [name] of an object. *)
Definition memberOf (name : string) (j : json) : option json :=
  match j with
  | JObject ms => snd <$> find (λ kv, String.eqb kv.1 name) ms
  | _ => None
  end.

(** The revision an entity in a request body carries. *)
Definition revisionSent (request : Request) : option Z :=
  match Body request with
  | Some (entity :: _) =>
      match memberOf "revision" entity ≫= memberOf "version" with
      | Some (JNumber n) => int_view n
      | _ => None
      end
  | _ => None
  end.

(** *** Entities whose strings are well-formed UTF-8 *)

Definition validUTF8b (s : string) : bool := String.eqb (toValidUTF8 s) s.

(** Every string in the value, the keys of its mappings included, is
    well-formed. *)
Fixpoint validValueb (v : value) : bool :=
  match v with
  | VString s => validUTF8b s
  | VSlice l => forallb validValueb l
  | VMap m => map_fold (λ k v b, validUTF8b k && validValueb v && b) true m
  | _ => true
  end.

Definition validValue (v : value) : Prop := validValueb v = true.

Definition validProperties (m : option (gmap string value)) : Prop :=
  map_Forall (λ k v, validUTF8 k ∧ validValue v) (default ∅ m).

Definition validProcessGroup (g : ProcessGroup) : Prop :=
  validUTF8 (pgc_Id (pg_Component g))
  ∧ validUTF8 (pgc_ParentGroupId (pg_Component g))
  ∧ validUTF8 (pgc_Name (pg_Component g)).

Definition validHand (h : ConnectionHand) : Prop :=
  validUTF8 (hand_Type h) ∧ validUTF8 (hand_Id h).

Definition validConnection (g : Connection) : Prop :=
  validUTF8 (cc_Id (conn_Component g))
  ∧ validUTF8 (cc_ParentGroupId (conn_Component g))
  ∧ validHand (cc_Source (conn_Component g))
  ∧ validHand (cc_Destination (conn_Component g))
  ∧ Forall validUTF8 (elems (cc_SelectedRelationships (conn_Component g))).

Definition validConfig (c : ProcessorConfig) : Prop :=
  validUTF8 (cfg_SchedulingStrategy c)
  ∧ validUTF8 (cfg_SchedulingPeriod c)
  ∧ validProperties (cfg_Properties c)
  ∧ Forall validUTF8 (elems (cfg_AutoTerminatedRelationships c)).

Definition validRelationship (r : ProcessorRelationship) : Prop :=
  validUTF8 (rel_Name r).

Definition validProcessor (p : Processor) : Prop :=
  validUTF8 (pc_Id (p_Component p))
  ∧ validUTF8 (pc_ParentGroupId (p_Component p))
  ∧ validUTF8 (pc_Name (p_Component p))
  ∧ validUTF8 (pc_Type (p_Component p))
  ∧ validUTF8 (pc_State (p_Component p))
  ∧ validConfig (pc_Config (p_Component p))
  ∧ Forall validRelationship (elems (pc_Relationships (p_Component p))).

(** *** Servers and structures to run the client on *)

(** The configuration of the examples. *)
Definition localhost : Config := {| Host := "localhost:8080"; ApiPath := "nifi-api" |}.

(** A server that gives every request the same answer. *)
Definition always (code : int) (body : result json) : Client :=
  {| cConfig := localhost;
     cClient :=
       {| http_NewRequest := λ _ _, None;
          http_Do := λ _, Ok {| StatusCode := code; RespBody := body |} |} |}.

(** A server that creates a resource only when asked at revision zero and
    answers with the entity it created; any other request is a bad one. *)
Definition creating (created : json) : Client :=
  {| cConfig := localhost;
     cClient :=
       {| http_NewRequest := λ _ _, None;
          http_Do := λ request,
            match revisionSent request with
            | Some 0 => Ok {| StatusCode := 201; RespBody := Ok created |}
            | _ =>
                Ok {| StatusCode := 400;
                      RespBody := Ok (JString "A revision of 0 must be specified") |}
            end |} |}.

(** A process group placed at a coordinate that is not a number; JSON has
    no literal for it and the encoder refuses the structure. *)
Definition unplaced : ProcessGroup :=
  {| pg_Revision := {| Version := 0 |};
     pg_Component :=
       {| pgc_Id := ""; pgc_ParentGroupId := "root"; pgc_Name := "etl";
          pgc_Position := {| X := S754_nan; Y := S754_zero false |} |} |}.

(** The processor of the scenario: id "p1", last seen at revision 3. *)
Definition p1 : Processor :=
  {| p_Revision := {| Version := 3 |};
     p_Component :=
       {| pc_Id := "p1"; pc_ParentGroupId := "root"; pc_Name := "ingest";
          pc_Type := "org.apache.nifi.processors.standard.GetFile";
          pc_Position := {| X := S754_zero false; Y := S754_zero false |};
          pc_State := "STOPPED";
          pc_Config :=
            {| cfg_SchedulingStrategy := "TIMER_DRIVEN";
               cfg_SchedulingPeriod := "0 sec";
               cfg_ConcurrentlySchedulableTaskCount := 1;
               cfg_Properties := Some {[ "Input Directory" := VString "/in" ]};
               cfg_AutoTerminatedRelationships := None |};
          pc_Relationships :=
            Some [{| rel_Name := "success"; rel_AutoTerminate := false |}] |} |}.

(** The answer of the scenario: processor "p1" with the relationships
    "success", auto-terminated, and "failure", not auto-terminated. *)
Definition p1Entity : json :=
  JObject
    [("revision", JObject [("version", JInt 3)]);
     ("component",
      JObject
        [("id", JString "p1");
         ("config", JObject [("properties", JObject [("Input Directory", JNull)])]);
         ("relationships",
          JArray
            [JObject [("name", JString "success"); ("autoTerminate", JBool true)];
             JObject [("name", JString "failure"); ("autoTerminate", JBool false)]])])].

(** The process group of the scenario, before and after its creation, and
    the same structure held at a revision seen earlier. *)
Definition etl : ProcessGroup :=
  {| pg_Revision := {| Version := 0 |};
     pg_Component :=
       {| pgc_Id := ""; pgc_ParentGroupId := "root"; pgc_Name := "etl";
          pgc_Position := {| X := S754_zero false; Y := S754_zero false |} |} |}.

Definition etlCreated : ProcessGroup :=
  {| pg_Revision := {| Version := 1 |};
     pg_Component :=
       {| pgc_Id := "7c84501d"; pgc_ParentGroupId := "root"; pgc_Name := "etl";
          pgc_Position := {| X := S754_zero false; Y := S754_zero false |} |} |}.

Definition etlAtSeven : ProcessGroup :=
  {| pg_Revision := {| Version := 7 |}; pg_Component := pg_Component etl |}.

Definition etlCreatedEntity : json :=
  JObject
    [("revision", JObject [("version", JInt 1)]);
     ("component",
      JObject
        [("id", JString "7c84501d"); ("parentGroupId", JString "root");
         ("name", JString "etl");
         ("position", JObject [("x", JInt 0); ("y", JInt 0)])])].

(** *** What decoding a server's entity leaves in a structure *)

(** The size of a value, counting the values nested in it. *)
Fixpoint vsize (v : value) : nat :=
  match v with
  | VSlice l => S (foldr (λ v n, (vsize v + n)%nat) 0%nat l)
  | VMap m => S (map_fold (λ _ v n, (vsize v + n)%nat) 0%nat m)
  | _ => 1%nat
  end.

(** A string field tagged [omitempty] after decoding an entity: the
    entity's value, or the old one when the entity's is empty and was not
    written. *)
Definition orElse (s old : string) : string :=
  if String.eqb s "" then old else s.

(** The property mapping after decoding an entity: [nil] when the entity's
    is [nil], otherwise the entity's bindings on top of the old ones. *)
Definition mergedProperties (s old : option (gmap string value))
  : option (gmap string value) :=
  match s with
  | None => None
  | Some m => Some (m ∪ default ∅ old)
  end.

Definition decodedProcessGroup (s old : ProcessGroup) : ProcessGroup :=
  {| pg_Revision := pg_Revision s;
     pg_Component :=
       {| pgc_Id := orElse (pgc_Id (pg_Component s)) (pgc_Id (pg_Component old));
          pgc_ParentGroupId := pgc_ParentGroupId (pg_Component s);
          pgc_Name := pgc_Name (pg_Component s);
          pgc_Position := pgc_Position (pg_Component s) |} |}.

Definition decodedConnection (s old : Connection) : Connection :=
  {| conn_Revision := conn_Revision s;
     conn_Component :=
       {| cc_Id := orElse (cc_Id (conn_Component s)) (cc_Id (conn_Component old));
          cc_ParentGroupId := cc_ParentGroupId (conn_Component s);
          cc_Source := cc_Source (conn_Component s);
          cc_Destination := cc_Destination (conn_Component s);
          cc_SelectedRelationships := cc_SelectedRelationships (conn_Component s);
          cc_Bends := cc_Bends (conn_Component s) |} |}.

Definition decodedProcessor (s old : Processor) : Processor :=
  {| p_Revision := p_Revision s;
     p_Component :=
       {| pc_Id := orElse (pc_Id (p_Component s)) (pc_Id (p_Component old));
          pc_ParentGroupId := pc_ParentGroupId (p_Component s);
          pc_Name := pc_Name (p_Component s);
          pc_Type := pc_Type (p_Component s);
          pc_Position := pc_Position (p_Component s);
          pc_State := orElse (pc_State (p_Component s)) (pc_State (p_Component old));
          pc_Config :=
            set_Properties
              (mergedProperties
                 (cfg_Properties (pc_Config (p_Component s)))
                 (cfg_Properties (pc_Config (p_Component old))))
              (pc_Config (p_Component s));
          pc_Relationships := pc_Relationships (p_Component s) |} |}.

(** The revision and the scheduled task count of an entity fit a Go [int]. *)
Definition processorInts (s : Processor) : Prop :=
  inInt64 (Version (p_Revision s))
  ∧ inInt64 (cfg_ConcurrentlySchedulableTaskCount (pc_Config (p_Component s))).

(** [processor] with the list of auto-terminated relationships that
    [GetProcessor] derives. *)
Definition withAutoTerminated (processor : Processor) : Processor :=
  set_Component
    (set_Config
       (set_AutoTerminatedRelationships
          (Some (autoTerminatedNames
                   (elems (pc_Relationships (p_Component processor)))))
          (pc_Config (p_Component processor)))
       (p_Component processor))
    processor.

(** [processor] with the nil-valued properties removed. *)
Definition withoutNil (processor : Processor) : Processor :=
  match cfg_Properties (pc_Config (p_Component processor)) with
  | Some m =>
      set_Component
        (set_Config
           (set_Properties (Some (filter (λ kv, isNil kv.2 = false) m))
              (pc_Config (p_Component processor)))
           (p_Component processor))
        processor
  | None => processor
  end.

(** A server that cannot be reached. *)
Definition unreachable : Client :=
  {| cConfig := localhost;
     cClient :=
       {| http_NewRequest := λ _ _, None;
          http_Do := λ _, Err (TransportError "connection refused") |} |}.

(** A client whose URLs [http.NewRequest] cannot parse. *)
Definition misconfigured : Client :=
  {| cConfig := {| Host := "local host"; ApiPath := "nifi-api" |};
     cClient :=
       {| http_NewRequest := λ _ _, Some (RequestError "invalid character in host name");
          http_Do := λ _, Err (TransportError "unreachable") |} |}.

(** A connection from processor "p1" to processor "p2", as a server holds
    it. *)
Definition link : Connection :=
  {| conn_Revision := {| Version := 2 |};
     conn_Component :=
       {| cc_Id := "c1"; cc_ParentGroupId := "root";
          cc_Source := {| hand_Type := "PROCESSOR"; hand_Id := "p1" |};
          cc_Destination := {| hand_Type := "PROCESSOR"; hand_Id := "p2" |};
          cc_SelectedRelationships := Some ["success"];
          cc_Bends := Some [{| X := S754_zero false; Y := S754_zero false |}] |} |}.

(** The connection a caller is about to create. *)
Definition linkDraft : Connection :=
  {| conn_Revision := {| Version := 0 |};
     conn_Component :=
       {| cc_Id := ""; cc_ParentGroupId := "root";
          cc_Source := {| hand_Type := "PROCESSOR"; hand_Id := "p1" |};
          cc_Destination := {| hand_Type := "PROCESSOR"; hand_Id := "p2" |};
          cc_SelectedRelationships := Some ["success"];
          cc_Bends := None |} |}.

(** Processor "p1" as a server holds it after an update: one property set,
    one unset, and no trace of a property the caller still has. *)
Definition p1Served : Processor :=
  {| p_Revision := {| Version := 4 |};
     p_Component :=
       {| pc_Id := "p1"; pc_ParentGroupId := "root"; pc_Name := "ingest";
          pc_Type := "org.apache.nifi.processors.standard.GetFile";
          pc_Position := {| X := S754_zero false; Y := S754_zero false |};
          pc_State := "STOPPED";
          pc_Config :=
            {| cfg_SchedulingStrategy := "TIMER_DRIVEN";
               cfg_SchedulingPeriod := "0 sec";
               cfg_ConcurrentlySchedulableTaskCount := 1;
               cfg_Properties :=
                 Some {[ "Batch Size" := VString "10"; "File Filter" := VNil ]};
               cfg_AutoTerminatedRelationships := Some ["success"] |};
          pc_Relationships :=
            Some [{| rel_Name := "success"; rel_AutoTerminate := true |}] |} |}.

(** A server that answers every request with the encoding of an entity. *)
Definition serving {T} `{Marshal T} (code : int) (entity : T) : Client :=
  always code (marshal entity).

(** The JSON value the encoder writes for an entity, [null] when it refuses
    the entity. *)
Definition wire {T} `{Marshal T} (entity : T) : json :=
  match marshal entity with
  | Ok j => j
  | Err _ => JNull
  end.

(** ** The model at work *)

Example status_error_message :
  Error (StatusError 503) = "The call has failed with the code of 503".
Proof. reflexivity. Qed.

(** Member names are matched up to case, unknown members are skipped and
    [null] leaves a field as it was. *)
Example decode_up_to_case :
  unmarshal
    (JObject [("Revision", JObject [("VERSION", JInt 4)]);
              ("uri", JString "http://localhost:8080/nifi-api/process-groups/a");
              ("component", JObject [("ID", JString "a"); ("name", JNull)])])
    {| pg_Revision := {| Version := 0 |};
       pg_Component :=
         {| pgc_Id := ""; pgc_ParentGroupId := "root"; pgc_Name := "etl";
            pgc_Position := zero |} |}
  = ({| pg_Revision := {| Version := 4 |};
        pg_Component :=
          {| pgc_Id := "a"; pgc_ParentGroupId := "root"; pgc_Name := "etl";
             pgc_Position := zero |} |}, None).
Proof. reflexivity. Qed.

(** A mismatch is recorded and the decoder goes on. *)
Example decode_goes_on_after_mismatch :
  unmarshal (JObject [("version", JString "4")]) {| Version := 2 |}
  = ({| Version := 2 |}, Some (UnmarshalTypeError "string" "int"))
  ∧ unmarshal
      (JObject [("name", JBool true); ("autoTerminate", JBool true)])
      {| rel_Name := "success"; rel_AutoTerminate := false |}
    = ({| rel_Name := "success"; rel_AutoTerminate := true |},
       Some (UnmarshalTypeError "bool" "string")).
Proof. split; reflexivity. Qed.

(** Map keys are written in byte order, a [nil] slice as [null]. *)
Example encode_properties :
  marshal (Some ({[ "b" := VString "x"; "a" := VNil; "B" := VBool true ]}
                   : gmap string value))
  = Ok (JObject [("B", JBool true); ("a", JNull); ("b", JString "x")])
  ∧ marshal (None : option (list string)) = Ok JNull
  ∧ marshal (Some [] : option (list string)) = Ok (JArray []).
Proof. repeat split; reflexivity. Qed.

(** ** The call primitive *)

Section JsonCall.
Context {A B : Type} `{Marshal A} `{Unmarshal B}.
Variables (c : Client) (method url : string).

(** The request handed to the transport is [requestOf method url bodyIn]. *)
Lemma JsonCall_exchange (bodyIn : option A) (bodyOut : option B) :
  JsonCall c method url bodyIn bodyOut
  = exchange c (requestOf method url bodyIn) bodyOut.
Proof.
  unfold JsonCall, exchange, classify, requestOf, carrying, bare, encoded.
  destruct bodyIn as [v|]; cbn [Method URL];
    destruct (http_NewRequest (cClient c) method url); try done;
    match goal with |- context [http_Do ?t ?r] => destruct (http_Do t r) end;
    try done; repeat case_match; simplify_eq/=; done.
Qed.

Lemma JsonCall_answered (bodyIn : option A) (bodyOut : option B) response :
  answers c (requestOf method url bodyIn) response →
  JsonCall c method url bodyIn bodyOut = classify response bodyOut.
Proof.
  intros [Hnew Hdo]. rewrite JsonCall_exchange. unfold exchange.
  by rewrite Hnew, Hdo.
Qed.

Lemma JsonCall_refused (bodyIn : option A) (bodyOut : option B) err :
  http_NewRequest (cClient c) method url = Some err →
  JsonCall c method url bodyIn bodyOut = (bodyOut, Some err, 0).
Proof. intros Hnew. unfold JsonCall. by rewrite Hnew. Qed.

Lemma JsonCall_transport (bodyIn : option A) (bodyOut : option B) err :
  http_NewRequest (cClient c) method url = None →
  http_Do (cClient c) (requestOf method url bodyIn) = Err err →
  JsonCall c method url bodyIn bodyOut = (bodyOut, Some err, 0).
Proof.
  intros Hnew Hdo. unfold JsonCall. rewrite Hnew.
  destruct bodyIn; unfold requestOf, carrying, bare, encoded in Hdo;
    by rewrite Hdo.
Qed.

End JsonCall.

(** C1: for every call to JsonCall whose exchange completes, a response with
    status 404 gives a nil error with the status code 404 and the output
    target as it was, whatever the body holds; a response with a status of
    300 or more other than 404 gives an error carrying that status code; a
    response with a status below 300 gives a nil error when no output target
    was supplied and otherwise the result of decoding the body into the
    target, which is the decoder's error when the body is malformed. *)
Theorem JsonCall_classifies_response {A B} `{Marshal A} `{Unmarshal B}
    (c : Client) (method url : string) (bodyIn : option A) (bodyOut : option B)
    (response : Response) :
  answers c (requestOf method url bodyIn) response →
  let code := StatusCode response in
  let call := JsonCall c method url bodyIn bodyOut in
  (code = 404 → call = (bodyOut, None, 404))
  ∧ (300 ≤ code → code ≠ 404 → call = (bodyOut, Some (StatusError code), code))
  ∧ (code < 300 →
       match bodyOut with
       | None => call = (None, None, code)
       | Some target =>
           match RespBody response with
           | Ok j => call = (Some (unmarshal j target).1, (unmarshal j target).2, code)
           | Err err => call = (Some target, Some err, code)
           end
       end).
Proof.
  intros Hans code call. subst call.
  rewrite (JsonCall_answered c method url bodyIn bodyOut response Hans).
  unfold classify. fold code. repeat split.
  - intros ->. done.
  - intros Hge Hne.
    destruct (Z.eqb_spec code 404) as [|_]; [done|].
    destruct (Z.leb_spec 300 code); [done|lia].
  - intros Hlt.
    destruct (Z.eqb_spec code 404) as [|_]; [lia|].
    destruct (Z.leb_spec 300 code); [lia|].
    destruct bodyOut as [target|]; [|done].
    by destruct (RespBody response).
Qed.

Lemma JsonCall_classifies_response_witness :
  JsonCall (A := nothing) (always 404 (Ok JNull)) "GET" "http://localhost:8080/x"
    None (Some {| Version := 7 |})
  = (Some {| Version := 7 |}, None, 404)
  ∧ JsonCall (A := nothing) (always 503 (Ok JNull)) "GET" "http://localhost:8080/x"
      None (Some {| Version := 7 |})
    = (Some {| Version := 7 |}, Some (StatusError 503), 503)
  ∧ JsonCall (A := nothing) (always 200 (Ok (JObject [("version", JInt 8)])))
      "GET" "http://localhost:8080/x" None (Some {| Version := 7 |})
    = (Some {| Version := 8 |}, None, 200)
  ∧ JsonCall (A := nothing) (always 200 (Err (SyntaxError "unexpected end of JSON input")))
      "GET" "http://localhost:8080/x" None (Some {| Version := 7 |})
    = (Some {| Version := 7 |}, Some (SyntaxError "unexpected end of JSON input"), 200).
Proof.
  split; [|split; [|split]].
  - refine (proj1 (JsonCall_classifies_response (A := nothing)
             (always 404 (Ok JNull)) "GET" "http://localhost:8080/x" None
             (Some {| Version := 7 |}) {| StatusCode := 404; RespBody := Ok JNull |}
             _) _); [split; reflexivity | reflexivity].
  - refine (proj1 (proj2 (JsonCall_classifies_response (A := nothing)
             (always 503 (Ok JNull)) "GET" "http://localhost:8080/x" None
             (Some {| Version := 7 |}) {| StatusCode := 503; RespBody := Ok JNull |}
             _)) _ _); [split; reflexivity | cbn; lia | cbn; lia].
  - refine (proj2 (proj2 (JsonCall_classifies_response (A := nothing)
             (always 200 (Ok (JObject [("version", JInt 8)])))
             "GET" "http://localhost:8080/x" None (Some {| Version := 7 |})
             {| StatusCode := 200; RespBody := Ok (JObject [("version", JInt 8)]) |}
             _)) _); [split; reflexivity | cbn; lia].
  - refine (proj2 (proj2 (JsonCall_classifies_response (A := nothing)
             (always 200 (Err (SyntaxError "unexpected end of JSON input")))
             "GET" "http://localhost:8080/x" None (Some {| Version := 7 |})
             {| StatusCode := 200;
                RespBody := Err (SyntaxError "unexpected end of JSON input") |}
             _)) _); [split; reflexivity | cbn; lia].
Defined.

(** ** Reading and deleting a resource that is not there *)

(** What the three getters share: the outcome of a GET that is answered
    with status 404. *)
Lemma classify_404 {B} `{Unmarshal B} (response : Response) (bodyOut : option B) :
  StatusCode response = 404 →
  classify response bodyOut = (bodyOut, None, 404).
Proof. intros Hcode. unfold classify. by rewrite Hcode. Qed.

(** C3: for every id, a Get answered with status 404 returns no resource
    and no error, for process groups, processors and connections alike. *)
Theorem Get_absent_returns_nil_nil (c : Client) (id : string) :
  (∀ response,
     answers c (bare "GET" (endpoint c ("/process-groups/" +:+ id))) response →
     StatusCode response = 404 →
     GetProcessGroup c id = (None, None))
  ∧ (∀ response,
       answers c (bare "GET" (endpoint c ("/processors/" +:+ id))) response →
       StatusCode response = 404 →
       GetProcessor c id = (None, None))
  ∧ (∀ response,
       answers c (bare "GET" (endpoint c ("/connections/" +:+ id))) response →
       StatusCode response = 404 →
       GetConnection c id = (None, None)).
Proof.
  split; [|split]; intros response Hans Hcode.
  - unfold GetProcessGroup.
    rewrite (JsonCall_answered (A := nothing) c "GET" _ None _ response Hans).
    by rewrite classify_404.
  - unfold GetProcessor.
    rewrite (JsonCall_answered (A := nothing) c "GET" _ None _ response Hans).
    by rewrite classify_404.
  - unfold GetConnection.
    rewrite (JsonCall_answered (A := nothing) c "GET" _ None _ response Hans).
    by rewrite classify_404.
Qed.

Lemma Get_absent_returns_nil_nil_witness :
  GetProcessGroup (always 404 (Ok (JString "Not found"))) "0a1b" = (None, None)
  ∧ GetProcessor (always 404 (Ok (JString "Not found"))) "0a1b" = (None, None)
  ∧ GetConnection (always 404 (Ok (JString "Not found"))) "0a1b" = (None, None).
Proof.
  pose (r := {| StatusCode := 404; RespBody := Ok (JString "Not found") |}).
  split; [|split].
  - refine (proj1 (Get_absent_returns_nil_nil
                     (always 404 (Ok (JString "Not found"))) "0a1b") r _ _);
      [split; reflexivity | reflexivity].
  - refine (proj1 (proj2 (Get_absent_returns_nil_nil
                     (always 404 (Ok (JString "Not found"))) "0a1b")) r _ _);
      [split; reflexivity | reflexivity].
  - refine (proj2 (proj2 (Get_absent_returns_nil_nil
                     (always 404 (Ok (JString "Not found"))) "0a1b")) r _ _);
      [split; reflexivity | reflexivity].
Defined.

(** C7, as the code has it: for every id, a Delete answered with status 404
    returns a nil error, for process groups, processors and connections
    alike; the 404 rule of the call primitive applies to Delete as it does
    to Get. *)
Theorem Delete_absent_returns_nil (c : Client) (id : string) :
  (∀ response,
     answers c (bare "DELETE" (endpoint c ("/process-groups/" +:+ id))) response →
     StatusCode response = 404 →
     DeleteProcessGroup c id = None)
  ∧ (∀ response,
       answers c (bare "DELETE" (endpoint c ("/processors/" +:+ id))) response →
       StatusCode response = 404 →
       DeleteProcessor c id = None)
  ∧ (∀ response,
       answers c (bare "DELETE" (endpoint c ("/connections/" +:+ id))) response →
       StatusCode response = 404 →
       DeleteConnection c id = None).
Proof.
  split; [|split]; intros response Hans Hcode.
  - unfold DeleteProcessGroup.
    rewrite (JsonCall_answered (A := nothing) (B := nothing)
               c "DELETE" _ None None response Hans).
    by rewrite classify_404.
  - unfold DeleteProcessor.
    rewrite (JsonCall_answered (A := nothing) (B := nothing)
               c "DELETE" _ None None response Hans).
    by rewrite classify_404.
  - unfold DeleteConnection.
    rewrite (JsonCall_answered (A := nothing) (B := nothing)
               c "DELETE" _ None None response Hans).
    by rewrite classify_404.
Qed.

Lemma Delete_absent_returns_nil_witness :
  DeleteProcessGroup (always 404 (Err (SyntaxError "EOF"))) "0a1b" = None
  ∧ DeleteProcessor (always 404 (Err (SyntaxError "EOF"))) "0a1b" = None
  ∧ DeleteConnection (always 404 (Err (SyntaxError "EOF"))) "0a1b" = None.
Proof.
  pose (r := {| StatusCode := 404; RespBody := Err (SyntaxError "EOF") |}).
  split; [|split].
  - refine (proj1 (Delete_absent_returns_nil
                     (always 404 (Err (SyntaxError "EOF"))) "0a1b") r _ _);
      [split; reflexivity | reflexivity].
  - refine (proj1 (proj2 (Delete_absent_returns_nil
                     (always 404 (Err (SyntaxError "EOF"))) "0a1b")) r _ _);
      [split; reflexivity | reflexivity].
  - refine (proj2 (proj2 (Delete_absent_returns_nil
                     (always 404 (Err (SyntaxError "EOF"))) "0a1b")) r _ _);
      [split; reflexivity | reflexivity].
Defined.

(** C7 as stated fails: the server answers the DELETE of process group
    "0a1b" with status 404, and [DeleteProcessGroup] returns no error at
    all, so not the error that carries the status code. *)
Lemma Delete_absent_is_no_error :
  answers (always 404 (Ok JNull))
    (bare "DELETE" (endpoint (always 404 (Ok JNull)) "/process-groups/0a1b"))
    {| StatusCode := 404; RespBody := Ok JNull |}
  ∧ DeleteProcessGroup (always 404 (Ok JNull)) "0a1b" = None
  ∧ DeleteProcessGroup (always 404 (Ok JNull)) "0a1b" ≠ Some (StatusError 404).
Proof. split; [split; reflexivity | split; [reflexivity | discriminate]]. Qed.

(** ** State transitions *)

(** The one exchange of a state transition. *)
Lemma SetProcessorState_exchange (c : Client) (p : Processor) (state : string) :
  SetProcessorState c p state
  = match (exchange (B := nothing) c
             (carrying "PUT" (endpoint c ("/processors/" +:+ pc_Id (p_Component p)))
                (encoded (stateUpdate p state)))
             None).1.2 with
    | None => (withState state p, None)
    | Some e => (p, Some e)
    end.
Proof.
  unfold SetProcessorState. rewrite JsonCall_exchange.
  change (requestOf "PUT" ?u (Some ?v)) with (carrying "PUT" u (encoded v)).
  fold (stateUpdate p state). unfold endpoint.
  by destruct (exchange _ _ _) as [[? []] ?].
Qed.

(** C4: for every processor, a state transition that returns a nil error
    sets the state field to the target and leaves every other field of the
    structure as it was; one that returns an error leaves the structure,
    the state field included, as it was. *)
Theorem SetProcessorState_frame (c : Client) (p : Processor) (state : string) :
  ((SetProcessorState c p state).2 = None →
     pc_State (p_Component (SetProcessorState c p state).1) = state
     ∧ sameButState p (SetProcessorState c p state).1)
  ∧ ((SetProcessorState c p state).2 ≠ None →
       (SetProcessorState c p state).1 = p).
Proof.
  rewrite SetProcessorState_exchange.
  destruct (exchange _ _ _).1.2 as [e|]; cbn; (split; [|done]).
  - discriminate.
  - intros _. split; [reflexivity|]. unfold sameButState. tauto.
Qed.

Lemma SetProcessorState_frame_witness :
  (pc_State (p_Component
      (SetProcessorState (always 200 (Ok JNull))
         (withState "STOPPED" zero) "RUNNING").1) = "RUNNING"
   ∧ sameButState (withState "STOPPED" zero)
       (SetProcessorState (always 200 (Ok JNull))
          (withState "STOPPED" zero) "RUNNING").1)
  ∧ (SetProcessorState (always 409 (Ok JNull)) (withState "STOPPED" zero) "RUNNING").1
    = withState "STOPPED" zero.
Proof.
  split.
  - refine (proj1 (SetProcessorState_frame (always 200 (Ok JNull))
                     (withState "STOPPED" zero) "RUNNING") _).
    reflexivity.
  - refine (proj2 (SetProcessorState_frame (always 409 (Ok JNull))
                     (withState "STOPPED" zero) "RUNNING") _).
    vm_compute. discriminate.
Defined.

(** C10: for every processor, when the server answers the state-transition
    PUT with status 404, SetProcessorState returns a nil error and the
    structure with its state field set to the target: the state field of
    the structure returned is the target and its other fields are those of
    the input. This is what it returns when the server answers with a
    status below 300. *)
Theorem SetProcessorState_absent_processor (c c' : Client) (p : Processor)
    (state : string) (response response' : Response) :
  answers c
    (carrying "PUT" (endpoint c ("/processors/" +:+ pc_Id (p_Component p)))
       (encoded (stateUpdate p state)))
    response →
  StatusCode response = 404 →
  answers c'
    (carrying "PUT" (endpoint c' ("/processors/" +:+ pc_Id (p_Component p)))
       (encoded (stateUpdate p state)))
    response' →
  StatusCode response' < 300 →
  SetProcessorState c p state = (withState state p, None)
  ∧ pc_State (p_Component (SetProcessorState c p state).1) = state
  ∧ sameButState p (SetProcessorState c p state).1
  ∧ SetProcessorState c' p state = SetProcessorState c p state.
Proof.
  intros [Hnew Hdo] Hcode [Hnew' Hdo'] Hcode'.
  rewrite !SetProcessorState_exchange. unfold exchange.
  rewrite Hnew, Hdo, Hnew', Hdo'. unfold classify. rewrite Hcode.
  destruct (Z.eqb_spec (StatusCode response') 404) as [|_]; [lia|].
  destruct (Z.leb_spec 300 (StatusCode response')); [lia|].
  cbn. unfold sameButState. cbn. tauto.
Qed.

Lemma SetProcessorState_absent_processor_witness :
  SetProcessorState (always 404 (Ok JNull)) (withState "STOPPED" zero) "RUNNING"
  = (withState "RUNNING" (withState "STOPPED" zero), None)
  ∧ pc_State (p_Component
      (SetProcessorState (always 404 (Ok JNull))
         (withState "STOPPED" zero) "RUNNING").1) = "RUNNING"
  ∧ sameButState (withState "STOPPED" zero)
      (SetProcessorState (always 404 (Ok JNull))
         (withState "STOPPED" zero) "RUNNING").1
  ∧ SetProcessorState (always 200 (Ok JNull)) (withState "STOPPED" zero) "RUNNING"
    = SetProcessorState (always 404 (Ok JNull)) (withState "STOPPED" zero) "RUNNING".
Proof.
  refine (SetProcessorState_absent_processor
            (always 404 (Ok JNull)) (always 200 (Ok JNull))
            (withState "STOPPED" zero) "RUNNING"
            {| StatusCode := 404; RespBody := Ok JNull |}
            {| StatusCode := 200; RespBody := Ok JNull |} _ _ _ _);
    [split; reflexivity | reflexivity | split; reflexivity | cbn; lia].
Defined.

(** ** Payloads that cannot be encoded *)

(** C9: for every payload the encoder refuses, JsonCall returns what the
    exchange returns for a request whose body is the empty buffer; the
    encoder's error is not part of the result. *)
Theorem JsonCall_drops_encoding_error {A B} `{Marshal A} `{Unmarshal B}
    (c : Client) (method url : string) (v : A) (bodyOut : option B) (e : error) :
  marshal v = Err e →
  JsonCall c method url (Some v) bodyOut
  = exchange c (carrying method url []) bodyOut.
Proof.
  intros Hv. rewrite JsonCall_exchange.
  unfold requestOf, encoded. by rewrite Hv.
Qed.

Lemma JsonCall_drops_encoding_error_witness :
  marshal unplaced = Err (UnsupportedValueError "float64")
  ∧ JsonCall (always 200 (Ok (JObject [("revision", JObject [("version", JInt 1)])])))
      "POST" "http://localhost:8080/nifi-api/process-groups/root/process-groups"
      (Some unplaced) (Some unplaced)
    = exchange (always 200 (Ok (JObject [("revision", JObject [("version", JInt 1)])])))
        (carrying "POST"
           "http://localhost:8080/nifi-api/process-groups/root/process-groups" [])
        (Some unplaced).
Proof.
  split; [reflexivity|].
  refine (JsonCall_drops_encoding_error
            (always 200 (Ok (JObject [("revision", JObject [("version", JInt 1)])])))
            "POST" "http://localhost:8080/nifi-api/process-groups/root/process-groups"
            unplaced (Some unplaced) (UnsupportedValueError "float64") _).
  reflexivity.
Defined.

(** ** The body of a state transition *)

(** The body [SetProcessorState] submits, for every processor and state:
    besides the revision, the id and the state, the component carries the
    six untagged fields at their zero values. *)
Lemma stateUpdate_encoding (p : Processor) (state : string) :
  encoded (stateUpdate p state)
  = [JObject
       [("revision", JObject [("version", JInt (Version (p_Revision p)))]);
        ("component",
         JObject
           (unlessEmpty "id" (pc_Id (p_Component p))
            ++ [("parentGroupId", JString ""); ("name", JString "");
                ("type", JString "");
                ("position", JObject [("x", JInt 0); ("y", JInt 0)])]
            ++ unlessEmpty "state" state
            ++ [("config",
                 JObject
                   [("schedulingStrategy", JString "");
                    ("schedulingPeriod", JString "");
                    ("concurrentlySchedulableTaskCount", JInt 0);
                    ("properties", JNull);
                    ("autoTerminatedRelationships", JNull)]);
                ("relationships", JNull)]))]].
Proof.
  destruct p as [[version] [id parent name type position st config rels]].
  cbn [p_Revision p_Component Version pc_Id].
  destruct id, state; reflexivity.
Qed.

(** C2 at the scenario's input: starting processor "p1" at revision 3, on
    any client, performs the exchange of a PUT whose component carries
    "parentGroupId", "name", "type", "position", "config" and
    "relationships" next to the id and the state, which is not the body
    the scenario expects. *)
Theorem StartProcessor_body_not_minimal (c : Client) :
  StartProcessor c p1
  = match (exchange (B := nothing) c
             (carrying "PUT" (endpoint c "/processors/p1")
                [JObject
                   [("revision", JObject [("version", JInt 3)]);
                    ("component",
                     JObject
                       [("id", JString "p1");
                        ("parentGroupId", JString "");
                        ("name", JString "");
                        ("type", JString "");
                        ("position", JObject [("x", JInt 0); ("y", JInt 0)]);
                        ("state", JString "RUNNING");
                        ("config",
                         JObject
                           [("schedulingStrategy", JString "");
                            ("schedulingPeriod", JString "");
                            ("concurrentlySchedulableTaskCount", JInt 0);
                            ("properties", JNull);
                            ("autoTerminatedRelationships", JNull)]);
                        ("relationships", JNull)])]])
             None).1.2 with
    | None => (withState "RUNNING" p1, None)
    | Some e => (p1, Some e)
    end
  ∧ encoded (stateUpdate p1 "RUNNING") ≠ [minimalBody "p1" 3 "RUNNING"].
Proof.
  split.
  - unfold StartProcessor. rewrite SetProcessorState_exchange.
    by rewrite stateUpdate_encoding.
  - rewrite stateUpdate_encoding. discriminate.
Qed.

(** ** Nil-property normalization *)

Lemma cleanupLoop_lookup (entries : list (string * value)) (m : gmap string value)
    (k : string) :
  cleanupLoop entries m !! k = if bindsNil k entries then None else m !! k.
Proof.
  revert m. induction entries as [|[k' v] entries IH]; intros m; [done|].
  unfold cleanupLoop in *. cbn [fold_left bindsNil existsb fst snd].
  rewrite IH. fold (bindsNil k entries).
  destruct (bindsNil k entries); [by rewrite orb_true_r|].
  rewrite orb_false_r. destruct (isNil v); cbn.
  - rewrite andb_true_r. case_bool_decide; subst.
    + apply lookup_delete_eq.
    + by apply lookup_delete_ne.
  - by rewrite andb_false_r.
Qed.

Lemma bindsNil_entries (entries : list (string * value)) (m : gmap string value)
    (k : string) :
  entries ≡ₚ map_to_list m →
  bindsNil k entries = true ↔ ∃ v, m !! k = Some v ∧ isNil v = true.
Proof.
  intros Hperm. unfold bindsNil. rewrite existsb_exists. split.
  - intros [[k' v] [Hin Hkv]]. cbn in Hkv.
    apply andb_true_iff in Hkv as [Hk Hv]. apply bool_decide_eq_true in Hk. subst.
    exists v. split; [|done].
    apply elem_of_map_to_list. rewrite <- Hperm. by apply list_elem_of_In.
  - intros (v & Hm & Hv). exists (k, v). split.
    + apply list_elem_of_In. rewrite Hperm. by apply elem_of_map_to_list.
    + cbn. rewrite Hv, andb_true_r. by apply bool_decide_eq_true.
Qed.

(** Whatever the order in which the loop meets the entries of the map, it
    leaves each key bound as before unless it was bound to [nil]. *)
Lemma cleanupLoop_any_order (entries : list (string * value))
    (m : gmap string value) (k : string) :
  entries ≡ₚ map_to_list m →
  cleanupLoop entries m !! k = stripNil (m !! k).
Proof.
  intros Hperm. rewrite cleanupLoop_lookup.
  pose proof (bindsNil_entries entries m k Hperm) as Hb.
  destruct (bindsNil k entries).
  - destruct (proj1 Hb eq_refl) as (v & -> & Hv). by destruct v.
  - destruct (m !! k) as [v|] eqn:Hm; [|done].
    destruct v; try done.
    destruct Hb as [_ Hb]. discriminate Hb. by exists VNil.
Qed.

Lemma stripNil_idemp (o : option value) : stripNil (stripNil o) = stripNil o.
Proof. by destruct o as [[]|]. Qed.

Lemma stripNil_not_nil (o : option value) : stripNil o ≠ Some VNil.
Proof. by destruct o as [[]|]. Qed.

Lemma cleanup_properties (c : Client) (p : Processor) (k : string) :
  properties (ProcessorCleanupNilProperties c p).1 !! k = stripNil (properties p !! k).
Proof.
  unfold ProcessorCleanupNilProperties, properties.
  destruct (cfg_Properties (pc_Config (p_Component p))) as [m|] eqn:Hm; cbn.
  - by apply cleanupLoop_any_order.
  - by rewrite Hm.
Qed.

Lemma cleanup_noNil (c : Client) (p : Processor) :
  noNilProperty (ProcessorCleanupNilProperties c p).1.
Proof. intros k. rewrite cleanup_properties. apply stripNil_not_nil. Qed.

Lemma cleanup_idemp (c : Client) (p : Processor) :
  (ProcessorCleanupNilProperties c (ProcessorCleanupNilProperties c p).1).1
  = (ProcessorCleanupNilProperties c p).1.
Proof.
  pose proof (cleanup_properties c p) as Hq.
  pose proof (cleanup_properties c (ProcessorCleanupNilProperties c p).1) as Hqq.
  revert Hq Hqq. unfold ProcessorCleanupNilProperties, properties.
  destruct p as [rev [id parent name type position state config rels]].
  unfold set_Component, set_Config, set_Properties.
  destruct config as [strategy period tasks [m|] atr]; cbn; [|done].
  intros Hq Hqq. do 4 f_equal.
  apply map_eq. intros k. by rewrite Hqq, Hq, stripNil_idemp.
Qed.

(** C5: for every processor, the nil-property normalization leaves under
    each key what was there unless that was nil, in which case it leaves
    nothing; running it on its own result changes nothing; and the
    processor that CreateProcessor, UpdateProcessor and GetProcessor hand
    back has no key bound to nil. *)
Theorem nil_property_normalization (c : Client) (p : Processor) (id : string) :
  (∀ k, properties (ProcessorCleanupNilProperties c p).1 !! k
        = stripNil (properties p !! k))
  ∧ (ProcessorCleanupNilProperties c (ProcessorCleanupNilProperties c p).1).1
    = (ProcessorCleanupNilProperties c p).1
  ∧ noNilProperty (CreateProcessor c p).1
  ∧ noNilProperty (UpdateProcessor c p).1
  ∧ match (GetProcessor c id).1 with
    | Some q => noNilProperty q
    | None => True
    end.
Proof.
  split; [apply cleanup_properties|].
  split; [apply cleanup_idemp|].
  split; [|split].
  - unfold CreateProcessor.
    destruct (JsonCall _ _ _ _ _) as [[out err] code].
    pose proof (cleanup_noNil c (deref p out)) as Hn.
    by destruct (ProcessorCleanupNilProperties c (deref p out)).
  - unfold UpdateProcessor.
    destruct (JsonCall _ _ _ _ _) as [[out err] code].
    pose proof (cleanup_noNil c (deref p out)) as Hn.
    by destruct (ProcessorCleanupNilProperties c (deref p out)).
  - unfold GetProcessor.
    destruct (JsonCall _ _ _ _ _) as [[out [e|]] code]; [done|].
    destruct (404 =? code); [done|].
    pose proof (cleanup_noNil c (deref zero out)) as Hn.
    by destruct (ProcessorCleanupNilProperties c (deref zero out)).
Qed.

(** ** The auto-terminated relationships of a fetched processor *)

(** The loop of [GetProcessor], started from any slice. *)
Lemma collect_autoTerminated (rels : list ProcessorRelationship) (acc : list string) :
  fold_left
    (λ relationships v,
       if rel_AutoTerminate v then append relationships (rel_Name v)
       else relationships)
    rels (Some acc)
  = Some (acc ++ autoTerminatedNames rels).
Proof.
  revert acc. induction rels as [|r rels IH]; intros acc; cbn [fold_left].
  - unfold autoTerminatedNames. by rewrite filter_nil, app_nil_r.
  - unfold autoTerminatedNames in *. destruct (rel_AutoTerminate r) eqn:Hr.
    + unfold append at 2. cbn [elems default]. rewrite IH.
      rewrite filter_cons_True by done. cbn. by rewrite <- app_assoc.
    + rewrite IH. by rewrite filter_cons_False by (rewrite Hr; done).
Qed.

(** C6: for every processor GetProcessor returns, the list of
    auto-terminated relationships holds exactly the names of the returned
    relationships whose auto-terminate flag is set, in their order; for the
    scenario's answer it is ["success"]. *)
Theorem GetProcessor_autoTerminated (c : Client) (id : string) :
  match (GetProcessor c id).1 with
  | Some p =>
      cfg_AutoTerminatedRelationships (pc_Config (p_Component p))
      = Some (autoTerminatedNames (elems (pc_Relationships (p_Component p))))
  | None => True
  end
  ∧ (λ p, (pc_Relationships (p_Component p),
           cfg_AutoTerminatedRelationships (pc_Config (p_Component p))))
      <$> (GetProcessor (always 200 (Ok p1Entity)) "p1").1
    = Some (Some [{| rel_Name := "success"; rel_AutoTerminate := true |};
                  {| rel_Name := "failure"; rel_AutoTerminate := false |}],
            Some ["success"]).
Proof.
  split; [|reflexivity].
  unfold GetProcessor.
  destruct (JsonCall _ _ _ _ _) as [[out [e|]] code]; [done|].
  destruct (404 =? code); [done|].
  destruct (ProcessorCleanupNilProperties c (deref zero out)) as [q err].
  cbn. by rewrite (collect_autoTerminated _ []).
Qed.

(** ** Creating a process group *)

Lemma float_view_number_of_float64 (f : float64) :
  float_view (number_of_float64 f) = f.
Proof. unfold number_of_float64. by repeat case_match. Qed.

(** Decoding what the encoder wrote gives the value back, whatever the
    target held. *)
Lemma float64_roundtrip (f g : float64) (j : json) :
  marshal f = Ok j → unmarshal j g = (f, None).
Proof.
  unfold marshal, float64_marshal. destruct (isFinite f) eqn:Hf; [|done].
  intros [= <-]. unfold unmarshal, float64_unmarshal.
  by rewrite float_view_number_of_float64, Hf.
Qed.

Lemma int_roundtrip (z z0 : Z) :
  inInt64 z → unmarshal (JInt z) z0 = (z, None).
Proof.
  intros [Hlo Hhi]. unfold unmarshal, int_unmarshal, JInt. cbn [int_view number_of_int].
  destruct (Z.leb_spec minInt64 z); [|lia].
  destruct (Z.leb_spec z maxInt64); [|lia]. done.
Qed.

Lemma Position_roundtrip (p q : Position) (j : json) :
  marshal p = Ok j → unmarshal j q = (p, None).
Proof.
  destruct p as [x y], q as [x0 y0].
  unfold marshal, Position_marshal, encodeStruct, member. cbn [X Y].
  destruct (marshal x) as [jx|] eqn:Hx; [|done].
  destruct (marshal y) as [jy|] eqn:Hy; [|done].
  cbn. intros [= <-].
  unfold unmarshal, Position_unmarshal, decodeStruct, into. cbn.
  rewrite (float64_roundtrip x x0 jx Hx). cbn.
  by rewrite (float64_roundtrip y y0 jy Hy).
Qed.

Lemma Revision_roundtrip (r r0 : Revision) :
  inInt64 (Version r) →
  marshal r = Ok (JObject [("version", JInt (Version r))])
  ∧ unmarshal (JObject [("version", JInt (Version r))]) r0 = (r, None).
Proof.
  destruct r as [v], r0 as [v0]. cbn [Version]. intros Hv. split; [done|].
  unfold unmarshal, Revision_unmarshal, decodeStruct, into. cbn -[JInt].
  by rewrite (int_roundtrip v v0 Hv).
Qed.

Lemma ProcessGroupComponent_roundtrip (s t : ProcessGroupComponent) (j : json) :
  pgc_Id s ≠ "" →
  validUTF8 (pgc_Id s) ∧ validUTF8 (pgc_ParentGroupId s) ∧ validUTF8 (pgc_Name s) →
  marshal s = Ok j → unmarshal j t = (s, None).
Proof.
  destruct s as [id parent name position], t as [id0 parent0 name0 position0].
  cbn [pgc_Id pgc_ParentGroupId pgc_Name]. unfold validUTF8.
  intros Hid (Hvid & Hvparent & Hvname). destruct id as [|a id]; [done|].
  unfold marshal at 1.
  unfold ProcessGroupComponent_marshal, encodeStruct, omitempty, member.
  cbn -[marshal unmarshal].
  destruct (marshal position) as [jp|] eqn:Hp; [|done].
  cbn. rewrite Hvid, Hvparent, Hvname. intros [= <-].
  unfold unmarshal, ProcessGroupComponent_unmarshal, decodeStruct, into. cbn.
  by rewrite (Position_roundtrip position position0 jp Hp).
Qed.

Lemma ProcessGroup_roundtrip (s t : ProcessGroup) (j : json) :
  pgc_Id (pg_Component s) ≠ "" →
  validProcessGroup s →
  inInt64 (Version (pg_Revision s)) →
  marshal s = Ok j → unmarshal j t = (s, None).
Proof.
  destruct s as [rev comp], t as [rev0 comp0]. unfold validProcessGroup.
  cbn [pg_Component pg_Revision].
  intros Hid Hvalid Hv.
  unfold marshal at 1. unfold ProcessGroup_marshal, encodeStruct, member.
  cbn -[marshal unmarshal].
  rewrite (proj1 (Revision_roundtrip rev rev0 Hv)).
  destruct (marshal comp) as [jc|] eqn:Hc; [|done].
  cbn. intros [= <-].
  unfold unmarshal at 1. unfold ProcessGroup_unmarshal, decodeStruct, into.
  cbn -[unmarshal JInt].
  rewrite (proj2 (Revision_roundtrip rev rev0 Hv)). cbn -[unmarshal].
  by rewrite (ProcessGroupComponent_roundtrip comp comp0 jc Hid Hvalid Hc).
Qed.

(** The encoding of a process group opens with the revision the structure
    holds. *)
Lemma ProcessGroup_encoding_revision (g : ProcessGroup) (j : json) :
  marshal g = Ok j →
  ∃ component,
    j = JObject [("revision", JObject [("version", JInt (Version (pg_Revision g)))]);
                 ("component", component)].
Proof.
  destruct g as [[v] comp].
  unfold marshal at 1. unfold ProcessGroup_marshal, encodeStruct, member.
  cbn -[marshal JInt].
  destruct (marshal comp) as [jc|]; [|done].
  cbn. intros [= <-]. by exists jc.
Qed.

(** The one exchange of a creation. *)
Lemma CreateProcessGroup_exchange (c : Client) (g : ProcessGroup) :
  CreateProcessGroup c g
  = (let r := exchange c
                (carrying "POST"
                   (endpoint c ("/process-groups/"
                                +:+ pgc_ParentGroupId (pg_Component g)
                                +:+ "/process-groups"))
                   (encoded g))
                (Some g) in
     (deref g r.1.1, r.1.2)).
Proof.
  unfold CreateProcessGroup. rewrite JsonCall_exchange.
  change (requestOf "POST" ?u (Some ?v)) with (carrying "POST" u (encoded v)).
  unfold endpoint. by destruct (exchange _ _ _) as [[? ?] ?].
Qed.

(** C8, as the code has it: for every process group with parent id p,
    CreateProcessGroup performs one exchange, a POST to
    http://<host>/<api-path>/process-groups/<p>/process-groups whose body
    is the encoding of the input structure and so carries the revision the
    structure holds; when the answer has a status below 300 the structure
    returned is the input structure with the response decoded into it, and
    it is the created entity itself, with no error, when the response is the
    encoding of an entity that has an id and a revision and whose strings
    are well-formed UTF-8. *)
Theorem CreateProcessGroup_posts_and_overwrites (c : Client) (g : ProcessGroup) :
  let request :=
    carrying "POST"
      (endpoint c ("/process-groups/" +:+ pgc_ParentGroupId (pg_Component g)
                   +:+ "/process-groups"))
      (encoded g) in
  CreateProcessGroup c g
  = (deref g (exchange c request (Some g)).1.1, (exchange c request (Some g)).1.2)
  ∧ (∀ j, marshal g = Ok j →
       ∃ component,
         encoded g
         = [JObject
              [("revision", JObject [("version", JInt (Version (pg_Revision g)))]);
               ("component", component)]])
  ∧ (∀ response j,
       answers c request response →
       StatusCode response < 300 →
       RespBody response = Ok j →
       CreateProcessGroup c g = unmarshal j g)
  ∧ (∀ response j created,
       answers c request response →
       StatusCode response < 300 →
       RespBody response = Ok j →
       marshal created = Ok j →
       pgc_Id (pg_Component created) ≠ "" →
       validProcessGroup created →
       inInt64 (Version (pg_Revision created)) →
       CreateProcessGroup c g = (created, None)).
Proof.
  intros request. split; [apply CreateProcessGroup_exchange|].
  assert (Hdecode : ∀ response j,
            answers c request response →
            StatusCode response < 300 →
            RespBody response = Ok j →
            CreateProcessGroup c g = unmarshal j g).
  { intros response j [Hnew Hdo] Hcode Hbody.
    rewrite CreateProcessGroup_exchange. fold request.
    unfold exchange. rewrite Hnew, Hdo. unfold classify.
    destruct (Z.eqb_spec (StatusCode response) 404) as [|_]; [lia|].
    destruct (Z.leb_spec 300 (StatusCode response)); [lia|].
    rewrite Hbody. cbn. by destruct (unmarshal j g). }
  split; [|split; [exact Hdecode|]].
  - intros j Hj. destruct (ProcessGroup_encoding_revision g j Hj) as [comp ->].
    exists comp. unfold encoded. by rewrite Hj.
  - intros response j created Hans Hcode Hbody Hcreated Hid Hvalid Hv.
    rewrite (Hdecode response j Hans Hcode Hbody).
    by apply ProcessGroup_roundtrip.
Qed.

Lemma CreateProcessGroup_posts_and_overwrites_witness :
  (∃ component,
     encoded etl
     = [JObject [("revision", JObject [("version", JInt 0)]);
                 ("component", component)]])
  ∧ CreateProcessGroup (creating etlCreatedEntity) etl = unmarshal etlCreatedEntity etl
  ∧ CreateProcessGroup (creating etlCreatedEntity) etl = (etlCreated, None).
Proof.
  pose (r := {| StatusCode := 201; RespBody := Ok etlCreatedEntity |}).
  pose proof (CreateProcessGroup_posts_and_overwrites
                (creating etlCreatedEntity) etl) as (_ & Hbody & Hdecode & Hcreated).
  split; [|split].
  - exact (Hbody _ eq_refl).
  - refine (Hdecode r etlCreatedEntity _ _ _);
      [split; reflexivity | cbn; lia | reflexivity].
  - refine (Hcreated r etlCreatedEntity etlCreated _ _ _ _ _ _ _);
      [split; reflexivity | cbn; lia | reflexivity | reflexivity
      | discriminate | repeat split; reflexivity
      | vm_compute; split; discriminate].
Defined.

(** C8 as stated fails: the structure holds revision 7, the body of the
    POST carries revision 7 and not zero, and the server that wants
    revision zero answers with status 400. *)
Lemma CreateProcessGroup_forwards_revision :
  revisionSent
    (carrying "POST"
       (endpoint (creating etlCreatedEntity) "/process-groups/root/process-groups")
       (encoded etlAtSeven))
  = Some 7
  ∧ CreateProcessGroup (creating etlCreatedEntity) etlAtSeven
    = (etlAtSeven, Some (StatusError 400))
  ∧ CreateProcessGroup (creating etlCreatedEntity) etl = (etlCreated, None).
Proof. split; [reflexivity | split; reflexivity]. Qed.

(** * Further properties *)

(** ** Encoding and decoding the values of a property mapping *)

Lemma vsize_elem (l : list value) (v : value) :
  v ∈ l → (vsize v < vsize (VSlice l))%nat.
Proof. cbn. induction 1; cbn; lia. Qed.

Lemma vsize_lookup (m : gmap string value) (k : string) (v : value) :
  m !! k = Some v → (vsize v < vsize (VMap m))%nat.
Proof.
  intros Hm. cbn.
  rewrite (map_fold_delete_L _ _ k v m); [lia| |done].
  intros. lia.
Qed.

(** Induction on a value with the values nested in it. *)
Lemma value_nested_ind (P : value → Prop) :
  P VNil → (∀ b, P (VBool b)) → (∀ f, P (VFloat64 f)) → (∀ s, P (VString s)) →
  (∀ l, Forall P l → P (VSlice l)) →
  (∀ m, map_Forall (λ _, P) m → P (VMap m)) →
  ∀ v, P v.
Proof.
  intros HN HB HF HS HL HM v.
  remember (vsize v) as n eqn:Hn. revert v Hn.
  induction n as [n IH] using lt_wf_ind. intros v ->.
  destruct v as [| | | |l|m]; auto.
  - apply HL, Forall_forall. intros v Hv. eapply IH; [|done]. by apply vsize_elem.
  - apply HM. intros k v Hv. eapply IH; [|done]. by eapply vsize_lookup.
Qed.

Lemma validUTF8b_true (s : string) : validUTF8b s = true ↔ validUTF8 s.
Proof. apply String.eqb_eq. Qed.

(** A well-formed value has well-formed values nested in it, under
    well-formed names. *)
Lemma validValue_elem (l : list value) (v : value) :
  validValue (VSlice l) → v ∈ l → validValue v.
Proof.
  unfold validValue. cbn [validValueb]. intros Hl Hv.
  rewrite forallb_forall in Hl. apply Hl. by apply list_elem_of_In.
Qed.

Lemma validValue_lookup (m : gmap string value) (k : string) (v : value) :
  validValue (VMap m) → m !! k = Some v → validUTF8 k ∧ validValue v.
Proof.
  unfold validValue. cbn [validValueb]. intros Hm Hk.
  rewrite (map_fold_delete_L _ _ k v m) in Hm; [| |done].
  - apply andb_true_iff in Hm as [Hm _]. apply andb_true_iff in Hm as [Hk' Hv].
    split; [by apply validUTF8b_true|done].
  - intros j1 j2 z1 z2 y _ _ _.
    by destruct (validUTF8b j1), (validValueb z1), (validUTF8b j2),
                (validValueb z2), y.
Qed.

Lemma mapM_Ok {A B} (f : A → result B) (l : list A) (k : list B) :
  mapM f l = Ok k ↔ Forall2 (λ x y, f x = Ok y) l k.
Proof.
  revert k. induction l as [|x l IH]; intros k; cbn; unfold mret, result_ret.
  - split; [intros [= <-]; constructor | by inversion 1].
  - destruct (f x) as [y|e] eqn:Hx; cbn.
    + destruct (mapM f l) as [k1|e] eqn:Hl; cbn; unfold mret, result_ret.
      * split.
        -- intros [= <-]. constructor; [done|]. by apply IH.
        -- inversion 1 as [|? y1 ? k2 Hy Hk]; subst. apply IH in Hk.
           congruence.
      * split; [done|]. inversion 1 as [|? y1 ? k2 Hy Hk]; subst.
        apply IH in Hk. done.
    + split; [done|]. inversion 1; congruence.
Qed.

(** Storing decoded members one by one: the later of two members with the
    same name wins, and what the map held stays under the other names. *)
Lemma fold_insert_decoded (l : list (string * value)) (m : gmap string value) :
  fold_left (λ (m : gmap string value) (kv : string * (value * option error)),
               <[kv.1 := kv.2.1]> m)
    ((λ kv : string * value, (kv.1, (kv.2, None))) <$> l) m
  = list_to_map (reverse l) ∪ m.
Proof.
  revert m. induction l as [|[k v] l IH]; intros m; cbn [fmap list_fmap fold_left fst snd].
  - rewrite reverse_nil. cbn. by rewrite (left_id_L ∅ (∪)).
  - rewrite IH, reverse_cons, list_to_map_app. cbn.
    rewrite insert_empty, <- (assoc_L (∪)).
    by rewrite <- insert_union_singleton_l.
Qed.

Lemma firstError_None {A} (l : list (string * A)) :
  firstError ((λ kv : string * (A * option error), kv.2.2)
                <$> ((λ kv : string * A, (kv.1, (kv.2, None))) <$> l)) = None.
Proof. by induction l. Qed.

(** The members the encoder writes for a map, as entries of the map. *)
Lemma encoded_members (m : gmap string value) (ms : list (string * json)) :
  mapM (λ kv : string * result json, j ← kv.2; Ok (toValidUTF8 kv.1, j))
    (sortMembers (map_to_list (marshalValue <$> m))) = Ok ms →
  ∃ l : list (string * value),
    l ≡ₚ map_to_list m
    ∧ Forall2 (λ kv kj, kj.1 = toValidUTF8 kv.1 ∧ marshalValue kv.2 = Ok kj.2) l ms.
Proof.
  intros Hms. apply mapM_Ok in Hms.
  assert (Hperm : sortMembers (map_to_list (marshalValue <$> m))
                  ≡ₚ prod_map id marshalValue <$> map_to_list m).
  { unfold sortMembers. rewrite merge_sort_Permutation. by rewrite map_to_list_fmap. }
  apply Permutation_map_inv in Hperm as (l & Hl & Hlm).
  exists l. split; [by symmetry|].
  rewrite Hl in Hms. apply Forall2_fmap_l in Hms.
  eapply Forall2_impl; [exact Hms|].
  intros [k v] [k' j]. cbn. destruct (marshalValue v); cbn; [|done].
  by intros [= <- <-].
Qed.

Lemma decoded_members (P : value → Prop) (l : list (string * value))
    (ms : list (string * json)) :
  (∀ v j, P v → marshalValue v = Ok j → valueInterface j = (v, None)) →
  Forall (λ kv, validUTF8 kv.1 ∧ P kv.2) l →
  Forall2 (λ kv kj, kj.1 = toValidUTF8 kv.1 ∧ marshalValue kv.2 = Ok kj.2) l ms →
  map (λ kj : string * json, (kj.1, valueInterface kj.2)) ms
  = (λ kv : string * value, (kv.1, (kv.2, None))) <$> l.
Proof.
  intros HP Hl Hms. induction Hms as [|[k v] [k' j] l ms [Hk Hv] Hms IH]; [done|].
  inversion Hl as [|? ? [Hk' Hv'] Hl']; subst. cbn in *. subst.
  rewrite Hk', (HP v j Hv' Hv). f_equal. by apply IH.
Qed.

Lemma list_to_map_reverse_entries (l : list (string * value)) (m : gmap string value) :
  l ≡ₚ map_to_list m → list_to_map (reverse l) = m.
Proof.
  intros Hl. transitivity (list_to_map (M := gmap string value) (map_to_list m));
    [|apply list_to_map_to_list].
  apply list_to_map_proper.
  - rewrite reverse_Permutation, Hl. apply NoDup_fst_map_to_list.
  - by rewrite reverse_Permutation.
Qed.

(** Decoding what the encoder wrote for a value whose strings are
    well-formed gives the value back. *)
Lemma value_roundtrip (v : value) (j : json) :
  validValue v → marshalValue v = Ok j → valueInterface j = (v, None).
Proof.
  revert j. induction v as [| | | | l IH | m IH] using value_nested_ind;
    intros j Hvalid; cbn.
  - by intros [= <-].
  - by intros [= <-].
  - unfold marshal, float64_marshal. destruct (isFinite f) eqn:Hf; [|done].
    intros [= <-]. cbn. by rewrite float_view_number_of_float64, Hf.
  - intros [= <-]. cbn. apply validUTF8b_true in Hvalid. by rewrite Hvalid.
  - destruct (mapM marshalValue l) as [js|] eqn:Hl; [|done]. cbn. intros [= <-].
    apply mapM_Ok in Hl. cbn.
    assert (Forall validValue l) as Hvalids.
    { apply Forall_forall. intros v Hv. by eapply validValue_elem. }
    clear Hvalid.
    assert (map valueInterface js = (λ v, (v, None)) <$> l) as ->.
    { induction Hl as [|v j l js Hv Hl IH1]; [done|].
      inversion IH as [|? ? Hv1 IHl]; subst.
      inversion Hvalids as [|? ? Hv2 Hvalidl]; subst.
      cbn. rewrite (Hv1 _ Hv2 Hv). f_equal. by apply IH1. }
    f_equal.
    + f_equal. clear. induction l; cbn; [done|]. by f_equal.
    + clear. by induction l.
  - destruct (mapM _ _) as [ms|] eqn:Hms; [|done]. cbn. intros [= <-].
    destruct (encoded_members m ms Hms) as (l & Hl & Hlms). cbn.
    rewrite (decoded_members (λ v, ∀ j, marshalValue v = Ok j
                                        → valueInterface j = (v, None)) l ms);
      [|by auto| |done].
    + rewrite fold_insert_decoded, firstError_None, (right_id_L ∅ (∪)).
      by rewrite (list_to_map_reverse_entries l m Hl).
    + apply Forall_forall. intros [k v] Hkv. cbn.
      assert (m !! k = Some v) as Hk.
      { apply elem_of_map_to_list. by rewrite <- Hl. }
      destruct (validValue_lookup m k v Hvalid Hk) as [Hvk Hvv].
      split; [done|]. intros j. by apply (IH k v Hk j).
Qed.

(** ** Decoding the encoding of an entity *)

Lemma properties_decode (s old : option (gmap string value)) (j : json) :
  validProperties s →
  marshal s = Ok j → unmarshal j old = (mergedProperties s old, None).
Proof.
  intros Hvalid. destruct s as [m|]; [|by intros [= <-]].
  unfold validProperties in Hvalid. cbn [default] in Hvalid.
  unfold marshal, map_marshal. cbn.
  destruct (mapM _ _) as [ms|] eqn:Hms; [|done]. cbn. intros [= <-].
  destruct (encoded_members m ms Hms) as (l & Hl & Hlms).
  unfold unmarshal, map_unmarshal.
  rewrite (decoded_members validValue l ms);
    [|by intros; apply value_roundtrip| |done].
  2:{ apply Forall_forall. intros [k v] Hkv. cbn. apply (Hvalid k v).
      apply elem_of_map_to_list. by rewrite <- Hl. }
  rewrite fold_insert_decoded, firstError_None.
  by rewrite (list_to_map_reverse_entries l m Hl).
Qed.

Section slices.
Context {A : Type} `{Marshal A} `{Unmarshal A} `{Zero A}.
Variable valid : A → Prop.
Hypothesis roundtrip : ∀ (a a0 : A) (j : json),
  valid a → marshal a = Ok j → unmarshal j a0 = (a, None).

Lemma decodeElems_roundtrip (l old : list A) (js : list json) :
  Forall valid l → mapM marshal l = Ok js → decodeElems js old = (l, None).
Proof.
  intros Hl Hjs. apply mapM_Ok in Hjs. revert old.
  induction Hjs as [|a j l js Ha Hjs IH]; intros old; [done|].
  inversion Hl as [|? ? Hva Hvl]; subst.
  cbn. rewrite (roundtrip a (hd zero old) j Hva Ha). by rewrite IH.
Qed.

(** A slice of elements that come back as they were encoded comes back as
    it was encoded, [nil] as [nil], whatever the target slice held. *)
Lemma slice_roundtrip (s old : option (list A)) (j : json) :
  Forall valid (elems s) → marshal s = Ok j → unmarshal j old = (s, None).
Proof.
  intros Hvalid. destruct s as [l|]; [|by intros [= <-]].
  cbn [elems] in Hvalid.
  unfold marshal, slice_marshal. cbn.
  destruct (mapM marshal l) as [js|] eqn:Hjs; [|done]. cbn. intros [= <-].
  unfold unmarshal, slice_unmarshal.
  by rewrite (decodeElems_roundtrip l (elems old) js Hvalid Hjs).
Qed.
End slices.

(** A well-formed string comes back as it was encoded. *)
Lemma string_roundtrip (s old : string) (j : json) :
  validUTF8 s → marshal s = Ok j → unmarshal j old = (s, None).
Proof. intros Hs [= <-]. cbn. by rewrite Hs. Qed.

(** A byte that starts no well-formed sequence is written as U+FFFD: such a
    string does not come back as it was. *)
Example string_coerced :
  marshal (String "255" "a") = Ok (JString (replacement "a"))
  ∧ unmarshal (JString (replacement "a")) "" ≠ (String "255" "a", None).
Proof. split; [reflexivity | discriminate]. Qed.

Lemma Position_slice_element (a a0 : Position) (j : json) :
  True → marshal a = Ok j → unmarshal j a0 = (a, None).
Proof. intros _. apply Position_roundtrip. Qed.

Lemma ProcessorRelationship_roundtrip (r old : ProcessorRelationship) (j : json) :
  validRelationship r → marshal r = Ok j → unmarshal j old = (r, None).
Proof.
  destruct r as [name flag], old as [name0 flag0]. unfold validRelationship. cbn [rel_Name].
  intros Hname [= <-]. cbn. by rewrite Hname.
Qed.

Lemma ConnectionHand_roundtrip (h old : ConnectionHand) (j : json) :
  validHand h → marshal h = Ok j → unmarshal j old = (h, None).
Proof.
  destruct h as [type id], old as [type0 id0]. unfold validHand. cbn [hand_Type hand_Id].
  intros [Htype Hid] [= <-]. cbn. by rewrite Htype, Hid.
Qed.

(** The members the encoder writes for a structure. *)
Lemma encodeStruct_Ok (ms : result (list (string * json))) (j : json) :
  encodeStruct ms = Ok j → ∃ l, ms = Ok l ∧ j = JObject l.
Proof. destruct ms as [l|]; [|done]. intros [= <-]. by exists l. Qed.

Lemma member_Ok {T} `{Marshal T} (name : string) (x : T)
    (rest : result (list (string * json))) (l : list (string * json)) :
  member name x rest = Ok l →
  ∃ j l', marshal x = Ok j ∧ rest = Ok l' ∧ l = (name, j) :: l'.
Proof.
  unfold member. destruct (marshal x) as [j|]; [|done].
  destruct rest as [l'|]; [|done]. intros [= <-]. by exists j, l'.
Qed.

Lemma omitempty_Ok (name s : string) (rest : result (list (string * json)))
    (l : list (string * json)) :
  omitempty name s rest = Ok l →
  (s = "" ∧ rest = Ok l)
  ∨ (s ≠ "" ∧ ∃ j l', marshal s = Ok j ∧ rest = Ok l' ∧ l = (name, j) :: l').
Proof.
  unfold omitempty. destruct (String.eqb_spec s "") as [->|Hs]; [by left|].
  intros (j & l' & Hj & -> & ->)%member_Ok. right.
  split; [done|]. by exists j, l'.
Qed.

Lemma orElse_empty (old : string) : orElse "" old = old.
Proof. done. Qed.

Lemma orElse_filled (s old : string) : s ≠ "" → orElse s old = s.
Proof. unfold orElse. by destruct (String.eqb_spec s ""). Qed.

(** Decoding a member into a field that takes it without complaint. *)
Lemma into_ok {T F} `{Unmarshal F} (get : T → F) (set : F → T → T)
    (j : json) (t : T) (x : F) :
  unmarshal j (get t) = (x, None) → into get set j t = (set x t, None).
Proof. intros Hx. unfold into. by rewrite Hx. Qed.

Ltac open_encoding H :=
  repeat match type of H with
    | marshal _ = Ok _ => unfold marshal at 1 in H
    | encodeStruct _ = Ok _ =>
        let l := fresh "l" in
        apply encodeStruct_Ok in H as (l & H & ->)
    | member _ _ _ = Ok _ =>
        let j := fresh "j" in
        let l := fresh "l" in
        let Hj := fresh "Hj" in
        apply member_Ok in H as (j & l & Hj & H & ->)
    | Ok [] = Ok _ => injection H as <-
    | ?inst _ = Ok _ => unfold inst in H
    end.

Ltac field_decoded :=
  idtac;
  match goal with
  | H : @marshal _ _ ?x = Ok ?j |- @unmarshal _ _ ?j _ = _ =>
      first
        [ refine (string_roundtrip x _ j _ H); assumption
        | exact (float64_roundtrip x _ j H)
        | exact (Position_roundtrip x _ j H)
        | refine (properties_decode x _ j _ H); assumption
        | refine (ConnectionHand_roundtrip x _ j _ H); assumption
        | refine (slice_roundtrip validUTF8 string_roundtrip x _ j _ H);
          assumption
        | refine (slice_roundtrip (λ _, True) Position_slice_element x _ j _ H);
          by apply Forall_forall
        | refine (slice_roundtrip validRelationship
                    ProcessorRelationship_roundtrip x _ j _ H); assumption ]
  end.

(** Decoding an object member by member. *)
Lemma decodeStruct_member {T} (name : string) (fs : list (string * setter T))
    (k : string) (v : json) (ms : list (string * json)) (t t' : T) (set : setter T) :
  lookupField fs k = Some set →
  set v t = (t', None) →
  decodeStruct name fs (JObject ((k, v) :: ms)) t
  = decodeStruct name fs (JObject ms) t'.
Proof.
  intros Hf Hs. unfold decodeStruct. cbn [fold_left fst snd].
  by rewrite Hf, Hs.
Qed.

Lemma decodeStruct_end {T} (name : string) (fs : list (string * setter T)) (t : T) :
  decodeStruct name fs (JObject []) t = (t, None).
Proof. done. Qed.

Ltac project :=
  cbn beta iota delta
    [Version X Y
     pgc_Id pgc_ParentGroupId pgc_Name pgc_Position pg_Revision pg_Component
     rel_Name rel_AutoTerminate
     cfg_SchedulingStrategy cfg_SchedulingPeriod cfg_ConcurrentlySchedulableTaskCount
     cfg_Properties cfg_AutoTerminatedRelationships
     pc_Id pc_ParentGroupId pc_Name pc_Type pc_Position pc_State pc_Config
     pc_Relationships p_Revision p_Component
     hand_Type hand_Id
     cc_Id cc_ParentGroupId cc_Source cc_Destination cc_SelectedRelationships
     cc_Bends conn_Revision conn_Component
     set_State set_Config set_Component set_Properties
     set_AutoTerminatedRelationships].

Ltac decode_members solve_field :=
  unfold unmarshal at 1;
  match goal with |- ?inst _ _ = _ => unfold inst end;
  repeat (project; erewrite decodeStruct_member;
          [| reflexivity | apply into_ok; project; solve_field ]);
  project; rewrite decodeStruct_end.

Lemma ProcessGroupComponent_decode (s old : ProcessGroupComponent) (j : json) :
  validUTF8 (pgc_Id s) → validUTF8 (pgc_ParentGroupId s) → validUTF8 (pgc_Name s) →
  marshal s = Ok j →
  unmarshal j old
  = ({| pgc_Id := orElse (pgc_Id s) (pgc_Id old);
        pgc_ParentGroupId := pgc_ParentGroupId s;
        pgc_Name := pgc_Name s;
        pgc_Position := pgc_Position s |}, None).
Proof.
  destruct s as [id parent name position], old as [id0 parent0 name0 position0].
  cbn [pgc_Id pgc_ParentGroupId pgc_Name pgc_Position].
  intros Hvid Hvparent Hvname Hj. unfold marshal, ProcessGroupComponent_marshal in Hj.
  cbn [pgc_Id pgc_ParentGroupId pgc_Name pgc_Position] in Hj.
  apply encodeStruct_Ok in Hj as (l & Hj & ->).
  apply omitempty_Ok in Hj as [[-> Hj]|[Hid (jid & l' & Hjid & Hj & ->)]];
    open_encoding Hj;
    decode_members field_decoded.
  - done.
  - by rewrite (orElse_filled id id0 Hid).
Qed.

Lemma Revision_decode (r old : Revision) (j : json) :
  inInt64 (Version r) → marshal r = Ok j → unmarshal j old = (r, None).
Proof.
  intros Hv Hj. destruct (Revision_roundtrip r old Hv) as [Hm Hu].
  rewrite Hm in Hj. by injection Hj as <-.
Qed.

Lemma ProcessGroup_decode (s old : ProcessGroup) (j : json) :
  validProcessGroup s →
  inInt64 (Version (pg_Revision s)) →
  marshal s = Ok j → unmarshal j old = (decodedProcessGroup s old, None).
Proof.
  destruct s as [rev comp], old as [rev0 comp0]. unfold validProcessGroup.
  cbn [pg_Revision pg_Component].
  intros (Hvid & Hvparent & Hvname) Hv Hj. open_encoding Hj.
  cbn [pg_Revision pg_Component] in *.
  decode_members
    ltac:(first [ eapply Revision_decode; eassumption
                | eapply ProcessGroupComponent_decode; eassumption ]).
  done.
Qed.

Lemma ConnectionComponent_decode (s old : ConnectionComponent) (j : json) :
  validUTF8 (cc_Id s) → validUTF8 (cc_ParentGroupId s) →
  validHand (cc_Source s) → validHand (cc_Destination s) →
  Forall validUTF8 (elems (cc_SelectedRelationships s)) →
  marshal s = Ok j →
  unmarshal j old
  = ({| cc_Id := orElse (cc_Id s) (cc_Id old);
        cc_ParentGroupId := cc_ParentGroupId s;
        cc_Source := cc_Source s;
        cc_Destination := cc_Destination s;
        cc_SelectedRelationships := cc_SelectedRelationships s;
        cc_Bends := cc_Bends s |}, None).
Proof.
  destruct s as [id parent source destination selected bends],
           old as [id0 parent0 source0 destination0 selected0 bends0].
  cbn [cc_Id cc_ParentGroupId cc_Source cc_Destination
       cc_SelectedRelationships cc_Bends].
  intros Hvid Hvparent Hvsource Hvdestination Hvselected Hj.
  unfold marshal, ConnectionComponent_marshal in Hj.
  cbn [cc_Id cc_ParentGroupId cc_Source cc_Destination
       cc_SelectedRelationships cc_Bends] in Hj.
  apply encodeStruct_Ok in Hj as (l & Hj & ->).
  apply omitempty_Ok in Hj as [[-> Hj]|[Hid (jid & l' & Hjid & Hj & ->)]];
    open_encoding Hj;
    decode_members field_decoded.
  - done.
  - by rewrite (orElse_filled id id0 Hid).
Qed.

Lemma Connection_decode (s old : Connection) (j : json) :
  validConnection s →
  inInt64 (Version (conn_Revision s)) →
  marshal s = Ok j → unmarshal j old = (decodedConnection s old, None).
Proof.
  destruct s as [rev comp], old as [rev0 comp0]. unfold validConnection.
  cbn [conn_Revision conn_Component].
  intros (Hvid & Hvparent & Hvsource & Hvdestination & Hvselected) Hv Hj.
  open_encoding Hj. cbn [conn_Revision conn_Component] in *.
  decode_members
    ltac:(first [ eapply Revision_decode; eassumption
                | eapply ConnectionComponent_decode; eassumption ]).
  done.
Qed.

Lemma int_decode (z old : Z) (j : json) :
  inInt64 z → marshal z = Ok j → unmarshal j old = (z, None).
Proof. intros Hz [= <-]. by apply int_roundtrip. Qed.

Lemma ProcessorConfig_decode (s old : ProcessorConfig) (j : json) :
  validConfig s →
  inInt64 (cfg_ConcurrentlySchedulableTaskCount s) →
  marshal s = Ok j →
  unmarshal j old
  = (set_Properties (mergedProperties (cfg_Properties s) (cfg_Properties old)) s,
     None).
Proof.
  destruct s as [strategy period tasks props atr],
           old as [strategy0 period0 tasks0 props0 atr0].
  unfold validConfig.
  cbn [cfg_SchedulingStrategy cfg_SchedulingPeriod
       cfg_ConcurrentlySchedulableTaskCount cfg_Properties
       cfg_AutoTerminatedRelationships].
  intros (Hvstrategy & Hvperiod & Hvprops & Hvatr) Htasks Hj. open_encoding Hj.
  cbn [cfg_SchedulingStrategy cfg_SchedulingPeriod
       cfg_ConcurrentlySchedulableTaskCount cfg_Properties
       cfg_AutoTerminatedRelationships] in *.
  decode_members ltac:(first [ field_decoded | eapply int_decode; eassumption ]).
  done.
Qed.

Lemma ProcessorComponent_decode (s old : ProcessorComponent) (j : json) :
  validUTF8 (pc_Id s) → validUTF8 (pc_ParentGroupId s) → validUTF8 (pc_Name s) →
  validUTF8 (pc_Type s) → validUTF8 (pc_State s) → validConfig (pc_Config s) →
  Forall validRelationship (elems (pc_Relationships s)) →
  inInt64 (cfg_ConcurrentlySchedulableTaskCount (pc_Config s)) →
  marshal s = Ok j →
  unmarshal j old
  = ({| pc_Id := orElse (pc_Id s) (pc_Id old);
        pc_ParentGroupId := pc_ParentGroupId s;
        pc_Name := pc_Name s;
        pc_Type := pc_Type s;
        pc_Position := pc_Position s;
        pc_State := orElse (pc_State s) (pc_State old);
        pc_Config :=
          set_Properties
            (mergedProperties (cfg_Properties (pc_Config s))
               (cfg_Properties (pc_Config old)))
            (pc_Config s);
        pc_Relationships := pc_Relationships s |}, None).
Proof.
  destruct s as [id parent name type position state config rels],
           old as [id0 parent0 name0 type0 position0 state0 config0 rels0].
  cbn [pc_Id pc_ParentGroupId pc_Name pc_Type pc_Position pc_State pc_Config
       pc_Relationships].
  intros Hvid Hvparent Hvname Hvtype Hvstate Hvconfig Hvrels Htasks Hj.
  unfold marshal, ProcessorComponent_marshal in Hj.
  cbn [pc_Id pc_ParentGroupId pc_Name pc_Type pc_Position pc_State pc_Config
       pc_Relationships] in Hj.
  apply encodeStruct_Ok in Hj as (l & Hj & ->).
  apply omitempty_Ok in Hj as [[-> Hj]|[Hid (jid & l' & Hjid & Hj & ->)]];
    open_encoding Hj;
    (apply omitempty_Ok in Hj
       as [[-> Hj]|[Hstate (jstate & l'' & Hjstate & Hj & ->)]]);
    open_encoding Hj;
    decode_members
      ltac:(first [ field_decoded
                  | eapply ProcessorConfig_decode; eassumption ]);
    cbn; rewrite ?orElse_empty, ?(orElse_filled id id0), ?(orElse_filled state state0)
      by done; done.
Qed.

Lemma Processor_decode (s old : Processor) (j : json) :
  validProcessor s →
  processorInts s →
  marshal s = Ok j → unmarshal j old = (decodedProcessor s old, None).
Proof.
  destruct s as [rev comp], old as [rev0 comp0].
  unfold validProcessor, processorInts. cbn [p_Revision p_Component].
  intros (Hvid & Hvparent & Hvname & Hvtype & Hvstate & Hvconfig & Hvrels)
    [Hv Htasks] Hj.
  open_encoding Hj.
  cbn [p_Revision p_Component] in *.
  decode_members
    ltac:(first [ eapply Revision_decode; eassumption
                | eapply ProcessorComponent_decode; eassumption ]).
  done.
Qed.

(** ** The call primitive, whatever the answer *)

Section classify.
Context {B : Type} `{Unmarshal B}.

Lemma classify_failure (response : Response) (bodyOut : option B) :
  300 ≤ StatusCode response → StatusCode response ≠ 404 →
  classify response bodyOut
  = (bodyOut, Some (StatusError (StatusCode response)), StatusCode response).
Proof.
  intros Hge Hne. unfold classify.
  destruct (Z.eqb_spec (StatusCode response) 404) as [|_]; [done|].
  by destruct (Z.leb_spec 300 (StatusCode response)); [|lia].
Qed.

Lemma classify_decoded (response : Response) (target : B) (j : json) :
  StatusCode response < 300 → RespBody response = Ok j →
  classify response (Some target)
  = (Some (unmarshal j target).1, (unmarshal j target).2, StatusCode response).
Proof.
  intros Hlt Hj. unfold classify.
  destruct (Z.eqb_spec (StatusCode response) 404) as [|_]; [lia|].
  destruct (Z.leb_spec 300 (StatusCode response)); [lia|].
  by rewrite Hj.
Qed.

Lemma classify_unread (response : Response) :
  StatusCode response < 300 →
  classify response (None : option B) = (None, None, StatusCode response).
Proof.
  intros Hlt. unfold classify.
  destruct (Z.eqb_spec (StatusCode response) 404) as [|_]; [lia|].
  by destruct (Z.leb_spec 300 (StatusCode response)); [lia|].
Qed.

(** The outcomes of classifying a response. *)
Lemma classify_cases (response : Response) (bodyOut : option B) :
  let code := StatusCode response in
  (classify response bodyOut = (bodyOut, None, code) ∧ (code = 404 ∨ code < 300))
  ∨ (classify response bodyOut = (bodyOut, Some (StatusError code), code)
     ∧ 300 ≤ code ∧ code ≠ 404)
  ∨ (∃ target err,
       bodyOut = Some target ∧ code < 300 ∧ RespBody response = Err err
       ∧ classify response bodyOut = (bodyOut, Some err, code))
  ∨ (∃ target j,
       bodyOut = Some target ∧ code < 300 ∧ RespBody response = Ok j
       ∧ classify response bodyOut
         = (Some (unmarshal j target).1, (unmarshal j target).2, code)).
Proof.
  intros code. unfold classify. fold code.
  destruct (Z.eqb_spec code 404) as [Heq|Hne]; [left; split; [done|by left]|].
  destruct (Z.leb_spec 300 code) as [Hge|Hlt]; [right; left; done|].
  destruct bodyOut as [target|]; [|left; split; [done|by right]].
  destruct (RespBody response) as [j|err] eqn:Hj.
  - do 3 right. by exists target, j.
  - right. right. left. by exists target, err.
Qed.
End classify.

(** X1: when [http.NewRequest] refuses the request, or the transport fails
    to complete the exchange, JsonCall returns that error with the status
    code 0 and leaves the output target as it was. *)
Theorem JsonCall_without_response {A B} `{Marshal A} `{Unmarshal B}
    (c : Client) (method url : string) (bodyIn : option A) (bodyOut : option B)
    (err : error) :
  http_NewRequest (cClient c) method url = Some err
  ∨ (http_NewRequest (cClient c) method url = None
     ∧ http_Do (cClient c) (requestOf method url bodyIn) = Err err) →
  JsonCall c method url bodyIn bodyOut = (bodyOut, Some err, 0).
Proof.
  intros [Hnew|[Hnew Hdo]].
  - by apply JsonCall_refused.
  - by apply JsonCall_transport.
Qed.

Lemma JsonCall_without_response_witness :
  JsonCall unreachable "PUT" "http://localhost:8080/nifi-api/process-groups/a"
    (Some etl) (Some etl)
  = (Some etl, Some (TransportError "connection refused"), 0)
  ∧ JsonCall misconfigured "PUT" "http://local host/nifi-api/process-groups/a"
      (Some etl) (Some etl)
    = (Some etl, Some (RequestError "invalid character in host name"), 0).
Proof.
  split.
  - refine (JsonCall_without_response unreachable "PUT" _ (Some etl) (Some etl)
              (TransportError "connection refused") _).
    right. split; reflexivity.
  - refine (JsonCall_without_response misconfigured "PUT" _ (Some etl) (Some etl)
              (RequestError "invalid character in host name") _).
    left. reflexivity.
Defined.

(** X2: a nil error from JsonCall means that a response was received and
    that its status code, which is the code returned, is 404 or below
    300. *)
Theorem JsonCall_nil_error {A B} `{Marshal A} `{Unmarshal B}
    (c : Client) (method url : string) (bodyIn : option A) (bodyOut : option B) :
  (JsonCall c method url bodyIn bodyOut).1.2 = None →
  ∃ response,
    answers c (requestOf method url bodyIn) response
    ∧ (JsonCall c method url bodyIn bodyOut).2 = StatusCode response
    ∧ (StatusCode response = 404 ∨ StatusCode response < 300).
Proof.
  rewrite JsonCall_exchange. unfold exchange, answers.
  cbn [Method URL requestOf].
  replace (Method (requestOf method url bodyIn)) with method by by destruct bodyIn.
  replace (URL (requestOf method url bodyIn)) with url by by destruct bodyIn.
  destruct (http_NewRequest (cClient c) method url) as [err|]; [done|].
  destruct (http_Do (cClient c) (requestOf method url bodyIn)) as [response|err];
    [|done].
  intros Herr. exists response. split; [done|].
  destruct (classify_cases response bodyOut)
    as [[-> ?]|[[Hc ?]|[(? & ? & ? & ? & ? & Hc)|(target & j & ? & ? & ? & Hc)]]];
    rewrite ?Hc in *; try done.
  split; [done|]. by right.
Qed.

Lemma JsonCall_nil_error_witness :
  ∃ response,
    answers (always 204 (Err (SyntaxError "EOF")))
      (requestOf (A := nothing) "DELETE" "http://localhost:8080/nifi-api/processors/p1"
         None)
      response
    ∧ (JsonCall (A := nothing) (B := nothing) (always 204 (Err (SyntaxError "EOF")))
         "DELETE" "http://localhost:8080/nifi-api/processors/p1" None None).2
      = StatusCode response
    ∧ (StatusCode response = 404 ∨ StatusCode response < 300).
Proof.
  refine (JsonCall_nil_error (A := nothing) (B := nothing)
            (always 204 (Err (SyntaxError "EOF"))) "DELETE"
            "http://localhost:8080/nifi-api/processors/p1" None None _).
  reflexivity.
Defined.

(** X3: JsonCall leaves the output target as it was, unless a response
    with a status below 300 came with a body that holds a JSON value, in
    which case the target is what the decoder made of it. *)
Theorem JsonCall_target {A B} `{Marshal A} `{Unmarshal B}
    (c : Client) (method url : string) (bodyIn : option A) (bodyOut : option B) :
  (JsonCall c method url bodyIn bodyOut).1.1 = bodyOut
  ∨ ∃ response j target,
      answers c (requestOf method url bodyIn) response
      ∧ StatusCode response < 300
      ∧ RespBody response = Ok j
      ∧ bodyOut = Some target
      ∧ JsonCall c method url bodyIn bodyOut
        = (Some (unmarshal j target).1, (unmarshal j target).2, StatusCode response).
Proof.
  rewrite JsonCall_exchange. unfold exchange, answers.
  replace (Method (requestOf method url bodyIn)) with method by by destruct bodyIn.
  replace (URL (requestOf method url bodyIn)) with url by by destruct bodyIn.
  destruct (http_NewRequest (cClient c) method url) as [err|]; [by left|].
  destruct (http_Do (cClient c) (requestOf method url bodyIn)) as [response|err];
    [|by left].
  destruct (classify_cases response bodyOut)
    as [[Hc ?]|[[Hc ?]|[(? & ? & ? & ? & ? & Hc)|(target & j & ? & ? & ? & Hc)]]];
    rewrite Hc; [by left..|].
  right. by exists response, j, target.
Qed.

(** ** Entities across the wire *)

Lemma orElse_zero (s : string) : orElse s "" = s.
Proof. unfold orElse. by destruct (String.eqb_spec s "") as [->|]. Qed.

Lemma decodedProcessGroup_zero (s : ProcessGroup) : decodedProcessGroup s zero = s.
Proof.
  destruct s as [rev [id parent name position]].
  unfold decodedProcessGroup. cbn. by rewrite orElse_zero.
Qed.

Lemma decodedConnection_zero (s : Connection) : decodedConnection s zero = s.
Proof.
  destruct s as [rev [id parent source destination selected bends]].
  unfold decodedConnection. cbn. by rewrite orElse_zero.
Qed.

Lemma decodedProcessor_zero (s : Processor) : decodedProcessor s zero = s.
Proof.
  destruct s as [rev [id parent name type position state
                      [strategy period tasks props atr] rels]].
  unfold decodedProcessor, set_Properties, mergedProperties. cbn.
  rewrite !orElse_zero. destruct props as [m|]; [|done].
  by rewrite (right_id_L ∅ (∪)).
Qed.

(** The strings of a structure written out are well-formed. *)
Ltac well_formed :=
  repeat match goal with
    | |- validProcessGroup _ => unfold validProcessGroup
    | |- validConnection _ => unfold validConnection
    | |- validProcessor _ => unfold validProcessor
    | |- validConfig _ => unfold validConfig
    | |- validHand _ => unfold validHand
    | |- validProperties _ => unfold validProperties
    | |- _ ∧ _ => split
    | |- validUTF8 _ => reflexivity
    | |- validValue _ => reflexivity
    | |- validRelationship _ => reflexivity
    | |- Forall _ _ => constructor
    | |- map_Forall _ _ =>
        first [ apply map_Forall_insert_2
              | apply map_Forall_singleton
              | apply map_Forall_empty ]
    end.



(** ** Normalization as a filter *)

Lemma cleanupLoop_filter (m : gmap string value) :
  cleanupLoop (map_to_list m) m = filter (λ kv, isNil kv.2 = false) m.
Proof.
  apply map_eq. intros k. rewrite cleanupLoop_any_order by done.
  apply option_eq. intros v. rewrite map_lookup_filter_Some. cbn.
  destruct (m !! k) as [[]|]; cbn; split; (intros [= <-] || intros [[= <-] ?]); done.
Qed.

Lemma cleanup_withoutNil (c : Client) (p : Processor) :
  ProcessorCleanupNilProperties c p = (withoutNil p, None).
Proof.
  unfold ProcessorCleanupNilProperties, withoutNil.
  destruct (cfg_Properties (pc_Config (p_Component p))) as [m|]; [|done].
  by rewrite cleanupLoop_filter.
Qed.

(** ** Fetching *)

Lemma GetProcessGroup_answered (c : Client) (id : string) (response : Response) :
  answers c (bare "GET" (endpoint c ("/process-groups/" +:+ id))) response →
  GetProcessGroup c id
  = match classify response (Some (zero : ProcessGroup)) with
    | (_, Some e, _) => (None, Some e)
    | (out, None, code) =>
        if 404 =? code then (None, None) else (Some (deref zero out), None)
    end.
Proof.
  intros Hans. unfold GetProcessGroup.
  rewrite (JsonCall_answered (A := nothing) c "GET" _ None _ response Hans).
  by destruct (classify _ _) as [[? []] ?].
Qed.

Lemma GetConnection_answered (c : Client) (id : string) (response : Response) :
  answers c (bare "GET" (endpoint c ("/connections/" +:+ id))) response →
  GetConnection c id
  = match classify response (Some (zero : Connection)) with
    | (_, Some e, _) => (None, Some e)
    | (out, None, code) =>
        if 404 =? code then (None, None) else (Some (deref zero out), None)
    end.
Proof.
  intros Hans. unfold GetConnection.
  rewrite (JsonCall_answered (A := nothing) c "GET" _ None _ response Hans).
  by destruct (classify _ _) as [[? []] ?].
Qed.

Lemma GetProcessor_answered (c : Client) (id : string) (response : Response) :
  answers c (bare "GET" (endpoint c ("/processors/" +:+ id))) response →
  GetProcessor c id
  = match classify response (Some (zero : Processor)) with
    | (_, Some e, _) => (None, Some e)
    | (out, None, code) =>
        if 404 =? code then (None, None)
        else (Some (withAutoTerminated (withoutNil (deref zero out))), None)
    end.
Proof.
  intros Hans. unfold GetProcessor.
  rewrite (JsonCall_answered (A := nothing) c "GET" _ None _ response Hans).
  destruct (classify _ _) as [[out [e|]] code]; [done|].
  destruct (404 =? code); [done|].
  rewrite cleanup_withoutNil. unfold withAutoTerminated.
  by rewrite (collect_autoTerminated _ []).
Qed.

Lemma not_404 (code : Z) : code < 300 → (404 =? code) = false.
Proof. intros. by destruct (Z.eqb_spec 404 code); [lia|]. Qed.

(** X5: when the server answers a Get with a status below 300 and the
    encoding of an entity whose strings are well-formed UTF-8,
    GetProcessGroup and GetConnection return that entity and no error, and
    GetProcessor returns it with its nil-valued properties removed and its
    auto-terminated relationships derived. *)
Theorem Get_returns_entity (c : Client) (id : string) :
  (∀ response (s : ProcessGroup) j,
     answers c (bare "GET" (endpoint c ("/process-groups/" +:+ id))) response →
     StatusCode response < 300 → RespBody response = Ok j →
     validProcessGroup s →
     inInt64 (Version (pg_Revision s)) → marshal s = Ok j →
     GetProcessGroup c id = (Some s, None))
  ∧ (∀ response (s : Connection) j,
       answers c (bare "GET" (endpoint c ("/connections/" +:+ id))) response →
       StatusCode response < 300 → RespBody response = Ok j →
       validConnection s →
       inInt64 (Version (conn_Revision s)) → marshal s = Ok j →
       GetConnection c id = (Some s, None))
  ∧ (∀ response (s : Processor) j,
       answers c (bare "GET" (endpoint c ("/processors/" +:+ id))) response →
       StatusCode response < 300 → RespBody response = Ok j →
       validProcessor s →
       processorInts s → marshal s = Ok j →
       GetProcessor c id = (Some (withAutoTerminated (withoutNil s)), None)).
Proof.
  split; [|split]; intros response s j Hans Hcode Hbody Hvalid Hints Hj.
  - rewrite (GetProcessGroup_answered c id response Hans).
    rewrite (classify_decoded response zero j Hcode Hbody).
    rewrite (ProcessGroup_decode s zero j Hvalid Hints Hj),
      decodedProcessGroup_zero.
    cbn [fst snd]. by rewrite not_404.
  - rewrite (GetConnection_answered c id response Hans).
    rewrite (classify_decoded response zero j Hcode Hbody).
    rewrite (Connection_decode s zero j Hvalid Hints Hj),
      decodedConnection_zero.
    cbn [fst snd]. by rewrite not_404.
  - rewrite (GetProcessor_answered c id response Hans).
    rewrite (classify_decoded response zero j Hcode Hbody).
    rewrite (Processor_decode s zero j Hvalid Hints Hj),
      decodedProcessor_zero.
    cbn [fst snd]. by rewrite not_404.
Qed.

Lemma Get_returns_entity_witness :
  GetProcessGroup (serving 200 etlCreated) "7c84501d" = (Some etlCreated, None)
  ∧ GetConnection (serving 200 link) "c1" = (Some link, None)
  ∧ GetProcessor (serving 200 p1Served) "p1"
    = (Some (withAutoTerminated (withoutNil p1Served)), None).
Proof.
  split; [|split].
  - eapply (proj1 (Get_returns_entity (serving 200 etlCreated) "7c84501d")
              {| StatusCode := 200; RespBody := marshal etlCreated |});
      [split; reflexivity | cbn; lia | reflexivity | well_formed
      | vm_compute; split; discriminate | reflexivity].
  - eapply (proj1 (proj2 (Get_returns_entity (serving 200 link) "c1"))
              {| StatusCode := 200; RespBody := marshal link |});
      [split; reflexivity | cbn; lia | reflexivity | well_formed
      | vm_compute; split; discriminate | reflexivity].
  - eapply (proj2 (proj2 (Get_returns_entity (serving 200 p1Served) "p1"))
              {| StatusCode := 200; RespBody := marshal p1Served |});
      [split; reflexivity | cbn; lia | reflexivity | well_formed
      | split; vm_compute; split; discriminate | reflexivity].
Defined.

(** X6: a resource returned by a Get comes with a nil error, from a
    response with a status below 300, and is what the decoder made of the
    whole body without recording any error; for a processor, after the
    normalization and the derivation of the auto-terminated
    relationships. *)
Theorem Get_resource_is_decoded (c : Client) (id : string) :
  (∀ response g e,
     answers c (bare "GET" (endpoint c ("/process-groups/" +:+ id))) response →
     GetProcessGroup c id = (Some g, e) →
     e = None ∧ StatusCode response < 300
     ∧ ∃ j, RespBody response = Ok j ∧ unmarshal j (zero : ProcessGroup) = (g, None))
  ∧ (∀ response g e,
       answers c (bare "GET" (endpoint c ("/connections/" +:+ id))) response →
       GetConnection c id = (Some g, e) →
       e = None ∧ StatusCode response < 300
       ∧ ∃ j, RespBody response = Ok j ∧ unmarshal j (zero : Connection) = (g, None))
  ∧ (∀ response g e,
       answers c (bare "GET" (endpoint c ("/processors/" +:+ id))) response →
       GetProcessor c id = (Some g, e) →
       e = None ∧ StatusCode response < 300
       ∧ ∃ j q, RespBody response = Ok j
                ∧ unmarshal j (zero : Processor) = (q, None)
                ∧ g = withAutoTerminated (withoutNil q)).
Proof.
  split; [|split]; intros response g e Hans.
  - rewrite (GetProcessGroup_answered c id response Hans). unfold classify.
    destruct (Z.eqb_spec (StatusCode response) 404) as [->|Hne]; [done|].
    destruct (Z.leb_spec 300 (StatusCode response)) as [|Hlt]; [done|].
    destruct (RespBody response) as [j|]; [|done].
    destruct (unmarshal j zero) as [g' [e'|]] eqn:Hg; [done|].
    cbn [fst snd]. rewrite not_404 by done. intros [= <- <-].
    repeat split; [done|]. by exists j.
  - rewrite (GetConnection_answered c id response Hans). unfold classify.
    destruct (Z.eqb_spec (StatusCode response) 404) as [->|Hne]; [done|].
    destruct (Z.leb_spec 300 (StatusCode response)) as [|Hlt]; [done|].
    destruct (RespBody response) as [j|]; [|done].
    destruct (unmarshal j zero) as [g' [e'|]] eqn:Hg; [done|].
    cbn [fst snd]. rewrite not_404 by done. intros [= <- <-].
    repeat split; [done|]. by exists j.
  - rewrite (GetProcessor_answered c id response Hans). unfold classify.
    destruct (Z.eqb_spec (StatusCode response) 404) as [->|Hne]; [done|].
    destruct (Z.leb_spec 300 (StatusCode response)) as [|Hlt]; [done|].
    destruct (RespBody response) as [j|]; [|done].
    destruct (unmarshal j zero) as [q [e'|]] eqn:Hq; [done|].
    cbn [fst snd]. rewrite not_404 by done. intros [= <- <-].
    repeat split; [done|]. by exists j, q.
Qed.

Lemma Get_resource_is_decoded_witness :
  StatusCode {| StatusCode := 200; RespBody := Ok etlCreatedEntity |} < 300
  ∧ ∃ j, Ok etlCreatedEntity = Ok j
         ∧ unmarshal j (zero : ProcessGroup) = (etlCreated, None).
Proof.
  refine (proj2 (proj1 (Get_resource_is_decoded (always 200 (Ok etlCreatedEntity))
                          "7c84501d")
                   {| StatusCode := 200; RespBody := Ok etlCreatedEntity |}
                   etlCreated None _ _));
    [split; reflexivity | reflexivity].
Defined.

(** ** Creating and updating *)

(** What Create and Update make of a classified response. *)
Lemma UpdateProcessGroup_answered (c : Client) (g : ProcessGroup) response :
  answers c
    (carrying "PUT" (endpoint c ("/process-groups/" +:+ pgc_Id (pg_Component g)))
       (encoded g))
    response →
  UpdateProcessGroup c g
  = (deref g (classify response (Some g)).1.1, (classify response (Some g)).1.2).
Proof.
  intros Hans. unfold UpdateProcessGroup.
  rewrite (JsonCall_answered c "PUT" _ (Some g) _ response Hans).
  by destruct (classify _ _) as [[? ?] ?].
Qed.

Lemma CreateProcessGroup_answered (c : Client) (g : ProcessGroup) response :
  answers c
    (carrying "POST"
       (endpoint c ("/process-groups/" +:+ pgc_ParentGroupId (pg_Component g)
                    +:+ "/process-groups"))
       (encoded g))
    response →
  CreateProcessGroup c g
  = (deref g (classify response (Some g)).1.1, (classify response (Some g)).1.2).
Proof.
  intros Hans. unfold CreateProcessGroup.
  rewrite (JsonCall_answered c "POST" _ (Some g) _ response Hans).
  by destruct (classify _ _) as [[? ?] ?].
Qed.

Lemma UpdateConnection_answered (c : Client) (g : Connection) response :
  answers c
    (carrying "PUT" (endpoint c ("/connections/" +:+ cc_Id (conn_Component g)))
       (encoded g))
    response →
  UpdateConnection c g
  = (deref g (classify response (Some g)).1.1, (classify response (Some g)).1.2).
Proof.
  intros Hans. unfold UpdateConnection.
  rewrite (JsonCall_answered c "PUT" _ (Some g) _ response Hans).
  by destruct (classify _ _) as [[? ?] ?].
Qed.

Lemma CreateConnection_answered (c : Client) (g : Connection) response :
  answers c
    (carrying "POST"
       (endpoint c ("/process-groups/" +:+ cc_ParentGroupId (conn_Component g)
                    +:+ "/connections"))
       (encoded g))
    response →
  CreateConnection c g
  = (deref g (classify response (Some g)).1.1, (classify response (Some g)).1.2).
Proof.
  intros Hans. unfold CreateConnection.
  rewrite (JsonCall_answered c "POST" _ (Some g) _ response Hans).
  by destruct (classify _ _) as [[? ?] ?].
Qed.

Lemma UpdateProcessor_answered (c : Client) (p : Processor) response :
  answers c
    (carrying "PUT" (endpoint c ("/processors/" +:+ pc_Id (p_Component p)))
       (encoded p))
    response →
  UpdateProcessor c p
  = (withoutNil (deref p (classify response (Some p)).1.1),
     (classify response (Some p)).1.2).
Proof.
  intros Hans. unfold UpdateProcessor.
  rewrite (JsonCall_answered c "PUT" _ (Some p) _ response Hans).
  destruct (classify _ _) as [[? ?] ?]. by rewrite cleanup_withoutNil.
Qed.

Lemma CreateProcessor_answered (c : Client) (p : Processor) response :
  answers c
    (carrying "POST"
       (endpoint c ("/process-groups/" +:+ pc_ParentGroupId (p_Component p)
                    +:+ "/processors"))
       (encoded p))
    response →
  CreateProcessor c p
  = (withoutNil (deref p (classify response (Some p)).1.1),
     (classify response (Some p)).1.2).
Proof.
  intros Hans. unfold CreateProcessor.
  rewrite (JsonCall_answered c "POST" _ (Some p) _ response Hans).
  destruct (classify _ _) as [[? ?] ?]. by rewrite cleanup_withoutNil.
Qed.

(** X7: when the server answers the PUT of UpdateProcessGroup with a status
    below 300, the structure returned is the input structure with the body
    decoded into it, together with the decoder's error; when the body is
    the encoding of an entity whose strings are well-formed UTF-8, the
    structure returned is that entity, except that an entity without id
    leaves the id of the input. *)
Theorem UpdateProcessGroup_overwrites (c : Client) (g : ProcessGroup)
    (response : Response) (j : json) :
  answers c
    (carrying "PUT" (endpoint c ("/process-groups/" +:+ pgc_Id (pg_Component g)))
       (encoded g))
    response →
  StatusCode response < 300 →
  RespBody response = Ok j →
  UpdateProcessGroup c g = unmarshal j g
  ∧ (∀ s, validProcessGroup s →
          inInt64 (Version (pg_Revision s)) → marshal s = Ok j →
          UpdateProcessGroup c g = (decodedProcessGroup s g, None)).
Proof.
  intros Hans Hcode Hbody.
  rewrite (UpdateProcessGroup_answered c g response Hans).
  rewrite (classify_decoded response g j Hcode Hbody). cbn [fst snd deref default].
  split; [by destruct (unmarshal j g)|].
  intros s Hvalid Hv Hs. by rewrite (ProcessGroup_decode s g j Hvalid Hv Hs).
Qed.

Lemma UpdateProcessGroup_overwrites_witness :
  UpdateProcessGroup (serving 200 etlCreated) etlAtSeven
  = unmarshal etlCreatedEntity etlAtSeven
  ∧ (∀ s, validProcessGroup s →
          inInt64 (Version (pg_Revision s)) → marshal s = Ok etlCreatedEntity →
          UpdateProcessGroup (serving 200 etlCreated) etlAtSeven
          = (decodedProcessGroup s etlAtSeven, None)).
Proof.
  refine (UpdateProcessGroup_overwrites (serving 200 etlCreated) etlAtSeven
            {| StatusCode := 200; RespBody := marshal etlCreated |}
            etlCreatedEntity _ _ _);
    [split; reflexivity | cbn; lia | reflexivity].
Defined.

(** X8: when the server answers the POST of CreateConnection or the PUT of
    UpdateConnection with a status below 300 and the encoding of an entity
    whose strings are well-formed UTF-8, the structure returned is that
    entity, selected relationships and bend points included, except that an
    entity without id leaves the id of the input. *)
Theorem Connection_overwrites (c : Client) (g s : Connection)
    (response : Response) (j : json) :
  StatusCode response < 300 →
  RespBody response = Ok j →
  validConnection s →
  inInt64 (Version (conn_Revision s)) →
  marshal s = Ok j →
  (answers c
     (carrying "POST"
        (endpoint c ("/process-groups/" +:+ cc_ParentGroupId (conn_Component g)
                     +:+ "/connections"))
        (encoded g))
     response →
   CreateConnection c g = (decodedConnection s g, None))
  ∧ (answers c
       (carrying "PUT" (endpoint c ("/connections/" +:+ cc_Id (conn_Component g)))
          (encoded g))
       response →
     UpdateConnection c g = (decodedConnection s g, None)).
Proof.
  intros Hcode Hbody Hvalid Hv Hs. split; intros Hans.
  - rewrite (CreateConnection_answered c g response Hans).
    rewrite (classify_decoded response g j Hcode Hbody).
    by rewrite (Connection_decode s g j Hvalid Hv Hs).
  - rewrite (UpdateConnection_answered c g response Hans).
    rewrite (classify_decoded response g j Hcode Hbody).
    by rewrite (Connection_decode s g j Hvalid Hv Hs).
Qed.

Lemma Connection_overwrites_witness :
  CreateConnection (serving 201 link) linkDraft = (link, None)
  ∧ UpdateConnection (serving 200 link) linkDraft = (link, None).
Proof.
  split.
  - refine (proj1 (Connection_overwrites (serving 201 link) linkDraft link
                     {| StatusCode := 201; RespBody := marshal link |} (wire link)
                     _ _ _ _ _) _);
      [cbn; lia | reflexivity | well_formed | vm_compute; split; discriminate
      | reflexivity | split; reflexivity].
  - refine (proj2 (Connection_overwrites (serving 200 link) linkDraft link
                     {| StatusCode := 200; RespBody := marshal link |} (wire link)
                     _ _ _ _ _) _);
      [cbn; lia | reflexivity | well_formed | vm_compute; split; discriminate
      | reflexivity | split; reflexivity].
Defined.

(** X9: when the server answers the POST of CreateProcessor or the PUT of
    UpdateProcessor with a status below 300 and the encoding of an entity
    whose strings are well-formed UTF-8, the structure returned holds the
    entity's fields, and its property
    mapping holds the entity's bindings on top of the bindings the
    caller's mapping had, without the nil-valued ones: a key the entity
    does not mention keeps the value the caller had for it. *)
Theorem Processor_overwrites_and_merges (c : Client) (p s : Processor)
    (response : Response) (j : json) :
  StatusCode response < 300 →
  RespBody response = Ok j →
  validProcessor s →
  processorInts s →
  marshal s = Ok j →
  (answers c
     (carrying "POST"
        (endpoint c ("/process-groups/" +:+ pc_ParentGroupId (p_Component p)
                     +:+ "/processors"))
        (encoded p))
     response →
   CreateProcessor c p = (withoutNil (decodedProcessor s p), None))
  ∧ (answers c
       (carrying "PUT" (endpoint c ("/processors/" +:+ pc_Id (p_Component p)))
          (encoded p))
       response →
     UpdateProcessor c p = (withoutNil (decodedProcessor s p), None))
  ∧ (∀ m k v,
       cfg_Properties (pc_Config (p_Component s)) = Some m →
       m !! k = None →
       properties p !! k = Some v →
       properties (withoutNil (decodedProcessor s p)) !! k = stripNil (Some v)).
Proof.
  intros Hcode Hbody Hvalid Hints Hs. split; [|split].
  - intros Hans. rewrite (CreateProcessor_answered c p response Hans).
    rewrite (classify_decoded response p j Hcode Hbody).
    by rewrite (Processor_decode s p j Hvalid Hints Hs).
  - intros Hans. rewrite (UpdateProcessor_answered c p response Hans).
    rewrite (classify_decoded response p j Hcode Hbody).
    by rewrite (Processor_decode s p j Hvalid Hints Hs).
  - intros m k v Hm Hk Hv.
    replace (withoutNil (decodedProcessor s p))
      with (ProcessorCleanupNilProperties c (decodedProcessor s p)).1
      by (by rewrite cleanup_withoutNil).
    rewrite cleanup_properties. f_equal.
    unfold properties, decodedProcessor, mergedProperties in *. cbn.
    rewrite Hm. cbn. by rewrite lookup_union_r.
Qed.

Lemma Processor_overwrites_and_merges_witness :
  UpdateProcessor (serving 200 p1Served) p1
  = (withoutNil (decodedProcessor p1Served p1), None)
  ∧ properties (withoutNil (decodedProcessor p1Served p1)) !! "Input Directory"
    = Some (VString "/in")
  ∧ properties (withoutNil (decodedProcessor p1Served p1)) !! "File Filter" = None.
Proof.
  pose proof (Processor_overwrites_and_merges (serving 200 p1Served) p1 p1Served
                {| StatusCode := 200; RespBody := marshal p1Served |} (wire p1Served))
    as H.
  destruct H as (_ & Hupdate & Hkeep);
    [cbn; lia | reflexivity | well_formed
    | split; vm_compute; split; discriminate | reflexivity|].
  split; [|split].
  - apply Hupdate. split; reflexivity.
  - exact (Hkeep _ "Input Directory" (VString "/in") eq_refl eq_refl eq_refl).
  - reflexivity.
Defined.

(** ** Answers that are not a success *)

(** X10: when the server answers a Create or an Update of a process group
    or of a connection with status 404, the call returns a nil error and
    the structure as it was; when it answers with another status of 300 or
    more, the call returns the error carrying that status and the structure
    as it was. *)
Theorem write_refused_keeps_structure (c : Client) (response : Response) :
  let outcome : option error :=
    if decide (StatusCode response = 404) then None
    else Some (StatusError (StatusCode response)) in
  300 ≤ StatusCode response →
  (∀ g,
     answers c
       (carrying "POST"
          (endpoint c ("/process-groups/" +:+ pgc_ParentGroupId (pg_Component g)
                       +:+ "/process-groups"))
          (encoded g))
       response →
     CreateProcessGroup c g = (g, outcome))
  ∧ (∀ g,
       answers c
         (carrying "PUT"
            (endpoint c ("/process-groups/" +:+ pgc_Id (pg_Component g)))
            (encoded g))
         response →
       UpdateProcessGroup c g = (g, outcome))
  ∧ (∀ g,
       answers c
         (carrying "POST"
            (endpoint c ("/process-groups/" +:+ cc_ParentGroupId (conn_Component g)
                         +:+ "/connections"))
            (encoded g))
         response →
       CreateConnection c g = (g, outcome))
  ∧ (∀ g,
       answers c
         (carrying "PUT" (endpoint c ("/connections/" +:+ cc_Id (conn_Component g)))
            (encoded g))
         response →
       UpdateConnection c g = (g, outcome)).
Proof.
  intros outcome Hge. subst outcome.
  assert (Hclass : ∀ B `{Unmarshal B} (t : B),
            classify response (Some t)
            = (Some t,
               if decide (StatusCode response = 404) then None
               else Some (StatusError (StatusCode response)),
               StatusCode response)).
  { intros B ? t. destruct (decide (StatusCode response = 404)) as [Heq|Hne].
    - rewrite (classify_404 response (Some t) Heq). by rewrite Heq.
    - by apply classify_failure. }
  repeat split; intros g Hans.
  - by rewrite (CreateProcessGroup_answered c g response Hans), Hclass.
  - by rewrite (UpdateProcessGroup_answered c g response Hans), Hclass.
  - by rewrite (CreateConnection_answered c g response Hans), Hclass.
  - by rewrite (UpdateConnection_answered c g response Hans), Hclass.
Qed.

Lemma write_refused_keeps_structure_witness :
  UpdateProcessGroup (always 409 (Ok etlCreatedEntity)) etlAtSeven
  = (etlAtSeven, Some (StatusError 409))
  ∧ UpdateConnection (always 404 (Ok JNull)) link = (link, None).
Proof.
  split.
  - refine (proj1 (proj2 (write_refused_keeps_structure
                            (always 409 (Ok etlCreatedEntity))
                            {| StatusCode := 409; RespBody := Ok etlCreatedEntity |}
                            _)) etlAtSeven _);
      [cbn; lia | split; reflexivity].
  - refine (proj2 (proj2 (proj2 (write_refused_keeps_structure
                            (always 404 (Ok JNull))
                            {| StatusCode := 404; RespBody := Ok JNull |}
                            _))) link _);
      [cbn; lia | split; reflexivity].
Defined.

(** X11: when the server answers CreateProcessor or UpdateProcessor with a
    status of 300 or more, the structure returned is the input structure
    with its nil-valued properties removed, and the error is nil for
    status 404 and carries the status otherwise: the normalization runs on
    the caller's structure even though nothing was decoded. *)
Theorem Processor_write_refused (c : Client) (p : Processor) (response : Response) :
  300 ≤ StatusCode response →
  (answers c
     (carrying "POST"
        (endpoint c ("/process-groups/" +:+ pc_ParentGroupId (p_Component p)
                     +:+ "/processors"))
        (encoded p))
     response →
   CreateProcessor c p
   = (withoutNil p,
      if decide (StatusCode response = 404) then None
      else Some (StatusError (StatusCode response))))
  ∧ (answers c
       (carrying "PUT" (endpoint c ("/processors/" +:+ pc_Id (p_Component p)))
          (encoded p))
       response →
     UpdateProcessor c p
     = (withoutNil p,
        if decide (StatusCode response = 404) then None
        else Some (StatusError (StatusCode response)))).
Proof.
  intros Hge.
  assert (Hclass : classify response (Some p)
                   = (Some p,
                      if decide (StatusCode response = 404) then None
                      else Some (StatusError (StatusCode response)),
                      StatusCode response)).
  { destruct (decide (StatusCode response = 404)) as [Heq|Hne].
    - rewrite (classify_404 response (Some p) Heq). by rewrite Heq.
    - by apply classify_failure. }
  split; intros Hans.
  - by rewrite (CreateProcessor_answered c p response Hans), Hclass.
  - by rewrite (UpdateProcessor_answered c p response Hans), Hclass.
Qed.

Lemma Processor_write_refused_witness :
  UpdateProcessor (always 409 (Ok JNull)) p1Served
  = (withoutNil p1Served, Some (StatusError 409))
  ∧ properties (withoutNil p1Served) !! "File Filter" = None
  ∧ properties p1Served !! "File Filter" = Some VNil.
Proof.
  split; [|split; reflexivity].
  refine (proj2 (Processor_write_refused (always 409 (Ok JNull)) p1Served
                   {| StatusCode := 409; RespBody := Ok JNull |} _) _);
    [cbn; lia | split; reflexivity].
Defined.

Ltac get_failure_cases response :=
  let Hlt := fresh "Hlt" in
  let Hbody := fresh "Hbody" in
  let He := fresh "He" in
  split; [|split];
  [ intros ? ?; by rewrite classify_failure
  | intros ? Hlt Hbody; unfold classify;
    destruct (Z.eqb_spec (StatusCode response) 404) as [|_]; [lia|];
    destruct (Z.leb_spec 300 (StatusCode response)); [lia|];
    by rewrite Hbody
  | intros ? ? Hlt Hbody He;
    rewrite (classify_decoded response zero _ Hlt Hbody); by rewrite He ].

(** X12: for three getters alike, a Get answered with a status of 300 or
    more other than 404 returns no resource and the error carrying the
    status; a Get answered with a status below 300 whose body cannot be
    read as JSON, or does not fit the structure, returns no resource and
    the decoder's error. *)
Theorem Get_failure (c : Client) (id : string) (response : Response) :
  (answers c (bare "GET" (endpoint c ("/process-groups/" +:+ id))) response →
   (300 ≤ StatusCode response → StatusCode response ≠ 404 →
    GetProcessGroup c id = (None, Some (StatusError (StatusCode response))))
   ∧ (∀ e, StatusCode response < 300 → RespBody response = Err e →
           GetProcessGroup c id = (None, Some e))
   ∧ (∀ j e, StatusCode response < 300 → RespBody response = Ok j →
             (unmarshal j (zero : ProcessGroup)).2 = Some e →
             GetProcessGroup c id = (None, Some e)))
  ∧ (answers c (bare "GET" (endpoint c ("/connections/" +:+ id))) response →
     (300 ≤ StatusCode response → StatusCode response ≠ 404 →
      GetConnection c id = (None, Some (StatusError (StatusCode response))))
     ∧ (∀ e, StatusCode response < 300 → RespBody response = Err e →
             GetConnection c id = (None, Some e))
     ∧ (∀ j e, StatusCode response < 300 → RespBody response = Ok j →
               (unmarshal j (zero : Connection)).2 = Some e →
               GetConnection c id = (None, Some e)))
  ∧ (answers c (bare "GET" (endpoint c ("/processors/" +:+ id))) response →
     (300 ≤ StatusCode response → StatusCode response ≠ 404 →
      GetProcessor c id = (None, Some (StatusError (StatusCode response))))
     ∧ (∀ e, StatusCode response < 300 → RespBody response = Err e →
             GetProcessor c id = (None, Some e))
     ∧ (∀ j e, StatusCode response < 300 → RespBody response = Ok j →
               (unmarshal j (zero : Processor)).2 = Some e →
               GetProcessor c id = (None, Some e))).
Proof.
  split; [|split]; intros Hans.
  - rewrite (GetProcessGroup_answered c id response Hans). get_failure_cases response.
  - rewrite (GetConnection_answered c id response Hans). get_failure_cases response.
  - rewrite (GetProcessor_answered c id response Hans). get_failure_cases response.
Qed.

Lemma Get_failure_witness :
  GetProcessGroup (always 500 (Ok JNull)) "a" = (None, Some (StatusError 500))
  ∧ GetConnection (always 200 (Err (SyntaxError "unexpected EOF"))) "c1"
    = (None, Some (SyntaxError "unexpected EOF"))
  ∧ GetProcessor
      (always 200 (Ok (JObject [("revision", JObject [("version", JInt 4)]);
                                ("component", JString "p1")])))
      "p1"
    = (None, Some (UnmarshalTypeError "string" "ProcessorComponent")).
Proof.
  split; [|split].
  - refine (proj1 (proj1 (Get_failure (always 500 (Ok JNull)) "a"
                            {| StatusCode := 500; RespBody := Ok JNull |}) _) _ _);
      [split; reflexivity | cbn; lia | cbn; lia].
  - refine (proj1 (proj2 (proj1 (proj2
              (Get_failure (always 200 (Err (SyntaxError "unexpected EOF"))) "c1"
                 {| StatusCode := 200;
                    RespBody := Err (SyntaxError "unexpected EOF") |})) _)) _ _ _);
      [split; reflexivity | cbn; lia | reflexivity].
  - refine (proj2 (proj2 (proj2 (proj2
              (Get_failure
                 (always 200 (Ok (JObject [("revision", JObject [("version", JInt 4)]);
                                           ("component", JString "p1")])))
                 "p1"
                 {| StatusCode := 200;
                    RespBody := Ok (JObject [("revision", JObject [("version", JInt 4)]);
                                             ("component", JString "p1")]) |})) _))
              _ _ _ _ _);
      [split; reflexivity | cbn; lia | reflexivity | reflexivity].
Defined.

(** ** Deleting *)

(** X13: for the three Delete functions alike, a Delete answered with a
    status below 300 returns a nil error whatever the body holds, and a
    Delete answered with a status of 300 or more other than 404 returns the
    error carrying that status. *)
Theorem Delete_outcomes (c : Client) (id : string) (response : Response) :
  (answers c (bare "DELETE" (endpoint c ("/process-groups/" +:+ id))) response →
   (StatusCode response < 300 → DeleteProcessGroup c id = None)
   ∧ (300 ≤ StatusCode response → StatusCode response ≠ 404 →
      DeleteProcessGroup c id = Some (StatusError (StatusCode response))))
  ∧ (answers c (bare "DELETE" (endpoint c ("/processors/" +:+ id))) response →
     (StatusCode response < 300 → DeleteProcessor c id = None)
     ∧ (300 ≤ StatusCode response → StatusCode response ≠ 404 →
        DeleteProcessor c id = Some (StatusError (StatusCode response))))
  ∧ (answers c (bare "DELETE" (endpoint c ("/connections/" +:+ id))) response →
     (StatusCode response < 300 → DeleteConnection c id = None)
     ∧ (300 ≤ StatusCode response → StatusCode response ≠ 404 →
        DeleteConnection c id = Some (StatusError (StatusCode response)))).
Proof.
  split; [|split]; intros Hans;
    [unfold DeleteProcessGroup|unfold DeleteProcessor|unfold DeleteConnection];
    rewrite (JsonCall_answered (A := nothing) (B := nothing)
               c "DELETE" _ None None response Hans);
    (split; [intros Hlt; by rewrite classify_unread
            |intros Hge Hne; by rewrite classify_failure]).
Qed.

Lemma Delete_outcomes_witness :
  DeleteProcessor (always 200 (Err (SyntaxError "not JSON"))) "p1" = None
  ∧ DeleteConnection (always 409 (Ok JNull)) "c1" = Some (StatusError 409).
Proof.
  split.
  - refine (proj1 (proj1 (proj2 (Delete_outcomes
              (always 200 (Err (SyntaxError "not JSON"))) "p1"
              {| StatusCode := 200; RespBody := Err (SyntaxError "not JSON") |})) _) _);
      [split; reflexivity | cbn; lia].
  - refine (proj2 (proj2 (proj2 (Delete_outcomes (always 409 (Ok JNull)) "c1"
              {| StatusCode := 409; RespBody := Ok JNull |})) _) _ _);
      [split; reflexivity | cbn; lia | cbn; lia].
Defined.

(** ** More on the normalization *)

(** X14: ProcessorCleanupNilProperties always returns a nil error; it
    leaves a nil mapping nil, turns any other mapping into the mapping of
    its entries whose value is not nil, and leaves every other field of the
    processor as it was. *)
Theorem cleanup_filters_properties (c : Client) (p : Processor) :
  ProcessorCleanupNilProperties c p
  = (set_Component
       (set_Config
          (set_Properties
             (filter (λ kv : string * value, isNil kv.2 = false)
                <$> cfg_Properties (pc_Config (p_Component p)))
             (pc_Config (p_Component p)))
          (p_Component p))
       p,
     None).
Proof.
  rewrite cleanup_withoutNil. unfold withoutNil.
  destruct p as [rev [id parent name type position state
                      [strategy period tasks [m|] atr] rels]]; done.
Qed.

(** X15: a processor none of whose properties is nil comes out of the
    normalization as it went in. *)
Theorem cleanup_fixpoint (c : Client) (p : Processor) :
  noNilProperty p → (ProcessorCleanupNilProperties c p).1 = p.
Proof.
  intros Hp. rewrite cleanup_withoutNil. cbn [fst].
  unfold withoutNil, noNilProperty, properties in *.
  destruct p as [rev [id parent name type position state
                      [strategy period tasks [m|] atr] rels]]; [|done].
  cbn in *. unfold set_Component, set_Config, set_Properties. cbn.
  rewrite map_filter_id; [done|].
  intros k v Hv. cbn. destruct v; try done. by destruct (Hp k).
Qed.

Lemma cleanup_fixpoint_witness :
  (ProcessorCleanupNilProperties (always 200 (Ok JNull)) p1).1 = p1.
Proof.
  refine (cleanup_fixpoint (always 200 (Ok JNull)) p1 _).
  intros k. unfold properties, p1. cbn.
  destruct (decide (k = "Input Directory")) as [->|Hk].
  - by rewrite lookup_singleton_eq.
  - by rewrite lookup_singleton_ne.
Defined.

(** ** State transitions, one after the other *)




(** ** Process groups the encoder refuses *)

(** X17: the encoder refuses a process group exactly when a coordinate of
    its position is not a finite number, and then leaves the buffer empty;
    otherwise it writes one JSON value. *)
Theorem ProcessGroup_encoding_fails (g : ProcessGroup) :
  (encoded g = []
   ↔ isFinite (X (pgc_Position (pg_Component g)))
     && isFinite (Y (pgc_Position (pg_Component g))) = false)
  ∧ (marshal g = Err (UnsupportedValueError "float64")
     ↔ isFinite (X (pgc_Position (pg_Component g)))
       && isFinite (Y (pgc_Position (pg_Component g))) = false)
  ∧ (isFinite (X (pgc_Position (pg_Component g)))
     && isFinite (Y (pgc_Position (pg_Component g))) = true
     → ∃ j, encoded g = [j]).
Proof.
  destruct g as [[v] [id parent name [x y]]].
  unfold encoded. cbn [pg_Component pgc_Position X Y].
  destruct id as [|a id], x, y; cbn -[number_of_float64 JInt];
    (split; [|split]); try done; try (split; done); eauto.
Qed.

Lemma ProcessGroup_encoding_fails_witness :
  ∃ j, encoded etl = [j].
Proof.
  refine (proj2 (proj2 (ProcessGroup_encoding_fails etl)) _). reflexivity.
Defined.

(** X18: the body of a state transition always encodes, whatever the
    processor holds, a position that is not a number included: the
    request is never sent with an empty body. *)
Theorem stateUpdate_always_encodes (c : Client) (p : Processor) (state : string) :
  ∃ j,
    encoded (stateUpdate p state) = [j]
    ∧ SetProcessorState c p state
      = match (exchange (B := nothing) c
                 (carrying "PUT"
                    (endpoint c ("/processors/" +:+ pc_Id (p_Component p))) [j])
                 None).1.2 with
        | None => (withState state p, None)
        | Some e => (p, Some e)
        end.
Proof.
  rewrite SetProcessorState_exchange, stateUpdate_encoding. eauto.
Qed.

(** ** When no response comes back *)

Lemma JsonCall_unreachable {A B} `{Marshal A} `{Unmarshal B} (c : Client)
    (err : error) (method url : string) (bodyIn : option A) (bodyOut : option B) :
  (∀ method url, http_NewRequest (cClient c) method url = None) →
  (∀ request, http_Do (cClient c) request = Err err) →
  JsonCall c method url bodyIn bodyOut = (bodyOut, Some err, 0).
Proof. intros Hnew Hdo. by apply JsonCall_transport. Qed.

(** X19: when the transport fails every exchange with the same error,
    every operation returns that error: the three Get functions return no
    resource, Create and Update return the structure as it was (for a
    processor, with its nil-valued properties removed), and a state
    transition leaves the processor as it was. *)
Theorem unreachable_server (c : Client) (err : error) :
  (∀ method url, http_NewRequest (cClient c) method url = None) →
  (∀ request, http_Do (cClient c) request = Err err) →
  (∀ id, GetProcessGroup c id = (None, Some err)
         ∧ GetProcessor c id = (None, Some err)
         ∧ GetConnection c id = (None, Some err)
         ∧ DeleteProcessGroup c id = Some err
         ∧ DeleteProcessor c id = Some err
         ∧ DeleteConnection c id = Some err)
  ∧ (∀ g, CreateProcessGroup c g = (g, Some err)
          ∧ UpdateProcessGroup c g = (g, Some err))
  ∧ (∀ g, CreateConnection c g = (g, Some err)
          ∧ UpdateConnection c g = (g, Some err))
  ∧ (∀ p state,
       CreateProcessor c p = (withoutNil p, Some err)
       ∧ UpdateProcessor c p = (withoutNil p, Some err)
       ∧ SetProcessorState c p state = (p, Some err)).
Proof.
  intros Hnew Hdo.
  split; [|split; [|split]].
  - intros id.
    unfold GetProcessGroup, GetProcessor, GetConnection,
      DeleteProcessGroup, DeleteProcessor, DeleteConnection.
    by rewrite !(JsonCall_unreachable c err).
  - intros g. unfold CreateProcessGroup, UpdateProcessGroup.
    by rewrite !(JsonCall_unreachable c err).
  - intros g. unfold CreateConnection, UpdateConnection.
    by rewrite !(JsonCall_unreachable c err).
  - intros p state. unfold CreateProcessor, UpdateProcessor, SetProcessorState.
    rewrite !(JsonCall_unreachable c err) by done.
    by rewrite cleanup_withoutNil.
Qed.

Lemma unreachable_server_witness :
  GetProcessor unreachable "p1" = (None, Some (TransportError "connection refused"))
  ∧ UpdateProcessGroup unreachable etlAtSeven
    = (etlAtSeven, Some (TransportError "connection refused"))
  ∧ StartProcessor unreachable p1 = (p1, Some (TransportError "connection refused")).
Proof.
  destruct (unreachable_server unreachable (TransportError "connection refused"))
    as (Hid & Hgroup & _ & Hprocessor); [reflexivity | reflexivity |].
  split; [|split].
  - exact (proj1 (proj2 (Hid "p1"))).
  - exact (proj2 (Hgroup etlAtSeven)).
  - exact (proj2 (proj2 (Hprocessor p1 "RUNNING"))).
Defined.
